(** * ConductorClient: a shallow embedding of vines_worker_sdk/conductor/__init__.py

    The client polls an orchestrator for tasks, runs a handler per task and
    reports the outcome.  The embedding keeps the structure of the Python
    class:

    - Python values that travel as JSON are the inductive [value];
    - the two class-level dicts [task_types] and [tasks] are insertion-ordered
      association lists ([dict]), with [del] failing on a missing key;
    - the orchestrator, the redis cache and the blob store are capabilities of
      a [world]; every request is appended to a log of [event]s, and a
      capability answers from the log so far and the request;
    - exceptions are values of [exn]; a computation is a function from the
      state to an [outcome] and the next state, with [try_except] for the
      try/except blocks;
    - the unbounded [while] loops take fuel; [Diverge] is the outcome of a
      loop that has not ended within its fuel.

    Diagnostic output (print, logging, traceback) is not an observable of the
    model.  [json.dumps], [json.loads], [repr] and [time.sleep] belong to
    the Python runtime: the definitions take them as parameters. *)

From Stdlib Require Import List String Ascii ZArith Lia Bool Arith.
From Stdlib Require Import Strings.Byte DecimalString.
Import ListNotations.
Open Scope string_scope.
Open Scope list_scope.
Open Scope Z_scope.

Set Implicit Arguments.
Set Warnings "-register-all".

(** ** Python values *)

(** The JSON-shaped subset of Python objects: what [r.json()] yields and
    what a handler returns as its result mapping. *)
Inductive value : Type :=
| VNone
| VBool (b : bool)
| VInt (z : Z)
| VStr (s : string)
| VList (l : list value)
| VDict (d : list (string * value)).

(** Python truth value testing, as used by [if result:] and
    [if output_data:]. *)
Definition truthy (v : value) : bool :=
  match v with
  | VNone => false
  | VBool b => b
  | VInt z => negb (z =? 0)
  | VStr s => negb (s =? EmptyString)%string
  | VList [] => false
  | VList (_ :: _) => true
  | VDict [] => false
  | VDict (_ :: _) => true
  end.

(** Truth value of an optional string argument ([None] and the empty string are
    falsy). *)
Definition truthy_str (o : option string) : bool :=
  match o with
  | None => false
  | Some s => negb (s =? EmptyString)%string
  end.

(** Truth value of an optional number ([None] and [0] are falsy). *)
Definition truthy_num (o : option Z) : bool :=
  match o with
  | None => false
  | Some z => negb (z =? 0)
  end.

(** ** Insertion-ordered dicts with string keys *)

Module Dict.
Section Dict.
Variable V : Type.

Definition t := list (string * V).

Definition empty : t := [].

(** [d.get(k)] / [d[k]] *)
Fixpoint get (k : string) (d : t) : option V :=
  match d with
  | [] => None
  | (k', v) :: d' => if (k =? k')%string then Some v else get k d'
  end.

Definition mem (k : string) (d : t) : bool :=
  match get k d with Some _ => true | None => false end.

(** [d[k] = v]: an existing key keeps its position, a new one goes last. *)
Fixpoint set (k : string) (v : V) (d : t) : t :=
  match d with
  | [] => [(k, v)]
  | (k', v') :: d' =>
      if (k =? k')%string then (k, v) :: d' else (k', v') :: set k v d'
  end.

Definition remove (k : string) (d : t) : t :=
  filter (fun p => negb (k =? fst p)%string) d.

(** [del d[k]]: [None] stands for [KeyError]. *)
Definition del (k : string) (d : t) : option t :=
  if mem k d then Some (remove k d) else None.

Definition keys (d : t) : list string := map fst d.
End Dict.
End Dict.

Definition dict (V : Type) : Type := Dict.t V.

(** ** Exceptions *)

Inductive exn : Type :=
| Exception (msg : string)          (* raise Exception(msg) in the client *)
| KeyError (key : string)           (* del self.tasks[key] on a missing key *)
| AttributeError (msg : string)     (* attribute access on None *)
| ForeignError (msg : string).      (* raised by a handler or a library *)

(** The two errors the client raises itself. *)
Definition InvalidStatusError : exn :=
  Exception "status must be COMPLETED or FAILED".

Definition ContextNotFoundError (workflow_instance_id : string) : exn :=
  Exception ("无法获取 workflow context for workflowInstanceId="
             ++ workflow_instance_id)%string.

(** What a capability or a handler answers. *)
Inductive reply (A : Type) : Type :=
| Ok (a : A)
| Err (e : exn).
Arguments Err {A} e.

(** What a computation of the client ends in. *)
Inductive outcome (A : Type) : Type :=
| Return (a : A)
| Raise (e : exn)
| Diverge.
Arguments Raise {A} e.
Arguments Diverge {A}.

(** ** Tasks, reports, events *)

Record task : Type := {
  taskId : string;
  workflowInstanceId : string;
  inputData : value
}.

(** The JSON body posted to [/tasks].  An optional field that is [None] is a
    key that the body does not have. *)
Record report : Type := {
  r_workflowInstanceId : string;
  r_taskId : string;
  r_status : string;
  r_workerId : string;
  r_outputData : option value;
  r_externalOutputPayloadStoragePath : option string;
  r_reasonForIncompletion : option string;
  r_callbackAfterSeconds : option Z
}.

Inductive event : Type :=
| GetWorkflow (workflow_instance_id : string)   (* GET /workflow/{id} *)
| RedisGet (key : string)                       (* redis_client.get(key) *)
| UploadBytes (key : string) (data : list byte) (* external_storage.upload_bytes *)
| PostTask (body : report)                      (* POST /tasks *)
| PollBatch (task_type worker_id : string) (count : Z)
                                                (* GET /tasks/poll/batch/{type} *)
| ThreadStart (task_type : string) (t : task)   (* threading.Thread(...).start() *)
| Sleep (ms : Z).                               (* time.sleep(ms / 1000) *)

Definition trace := list event.

(** A handler: [callback(task, workflow_context)]. *)
Definition callback := task -> value -> reply value.

(** The blob store client. *)
Definition OSSClient := trace -> string -> list byte -> reply unit.

(** The capabilities outside the process. *)
Record world : Type := {
  (* r.json().get('parentWorkflowId') of GET /workflow/{id} *)
  http_get_workflow : trace -> string -> reply (option string);
  (* redis_client.get(key) *)
  redis_get : trace -> string -> reply (option string);
  (* requests.post(/tasks, json=body) *)
  http_post_task : trace -> report -> reply unit;
  (* r.json() of GET /tasks/poll/batch/{type} *)
  http_poll_batch : trace -> string -> string -> Z -> reply (list task)
}.

(** The constructor arguments the modelled methods read. *)
Record config : Type := {
  worker_id : string;
  poll_interval_ms : Z;
  task_output_payload_size_threshold_kb : Z;
  external_storage : option OSSClient;
  worker_name_prefix : option string
}.

(** The mutable part: the two dicts and the log of requests made. *)
Record state : Type := {
  task_types : dict callback;
  tasks : dict task;
  log : trace
}.

(** ** The computation monad *)

Definition M (A : Type) : Type := state -> outcome A * state.

Definition ret {A} (a : A) : M A := fun s => (Return a, s).

Definition raise {A} (e : exn) : M A := fun s => (Raise e, s).

Definition diverge {A} : M A := fun s => (Diverge, s).

Definition bind {A B} (m : M A) (f : A -> M B) : M B :=
  fun s =>
    match m s with
    | (Return a, s') => f a s'
    | (Raise e, s') => (Raise e, s')
    | (Diverge, s') => (Diverge, s')
    end.

(** [try: m except Exception as e: h e] *)
Definition try_except {A} (m : M A) (h : exn -> M A) : M A :=
  fun s =>
    match m s with
    | (Raise e, s') => h e s'
    | r => r
    end.

Definition of_reply {A} (r : reply A) : M A :=
  match r with
  | Ok a => ret a
  | Err e => raise e
  end.

Declare Scope M_scope.
Delimit Scope M_scope with M.
Notation "x <- m ;; k" := (bind m (fun x => k))
  (at level 61, m at next level, right associativity) : M_scope.
Notation "m ;;; k" := (bind m (fun _ => k))
  (at level 61, right associativity) : M_scope.
Open Scope M_scope.

(** One request: ask the capability with the log so far, then log it. *)
Definition request {A} (ev : event) (answer : trace -> reply A) : M A :=
  fun s =>
    let s' := {| task_types := task_types s; tasks := tasks s;
                 log := log s ++ [ev] |} in
    match answer (log s) with
    | Ok a => (Return a, s')
    | Err e => (Raise e, s')
    end.

Definition set_tasks (d : dict task) : M unit :=
  fun s => (Return tt, {| task_types := task_types s; tasks := d; log := log s |}).

Definition set_task_types (d : dict callback) : M unit :=
  fun s => (Return tt, {| task_types := d; tasks := tasks s; log := log s |}).

Definition get_state : M state := fun s => (Return s, s).

Fixpoint for_each {A} (l : list A) (body : A -> M unit) : M unit :=
  match l with
  | [] => ret tt
  | x :: l' => body x ;;; for_each l' body
  end.

(** ** A Python runtime for the examples

    [json.dumps] with its defaults (separators [", "] and [": "],
    [ensure_ascii=True]) on [value], a string being the UTF-8 bytes of a
    Python [str]. *)

Module Runtime.
Local Open Scope string_scope.

Definition chr (n : N) : string := String (ascii_of_N n) EmptyString.

Definition backslash : string := chr 92.

Definition hex_digit (n : N) : string :=
  chr (if (n <? 10)%N then 48 + n else 87 + n)%N.

(** [format(c, '04x')] *)
Definition hex4 (c : N) : string :=
  hex_digit ((c / 4096) mod 16)%N ++ hex_digit ((c / 256) mod 16)%N
  ++ hex_digit ((c / 16) mod 16)%N ++ hex_digit (c mod 16)%N.

(** The code points of a UTF-8 byte sequence. *)
Fixpoint code_points (bs : list N) : list N :=
  match bs with
  | [] => []
  | b :: r =>
      if (b <? 128)%N then b :: code_points r
      else if (b <? 224)%N then
        match r with
        | b1 :: r1 => ((b - 192) * 64 + (b1 - 128))%N :: code_points r1
        | _ => [b]
        end
      else if (b <? 240)%N then
        match r with
        | b1 :: b2 :: r2 =>
            ((b - 224) * 4096 + (b1 - 128) * 64 + (b2 - 128))%N
            :: code_points r2
        | _ => [b]
        end
      else
        match r with
        | b1 :: b2 :: b3 :: r3 =>
            ((b - 240) * 262144 + (b1 - 128) * 4096
             + (b2 - 128) * 64 + (b3 - 128))%N :: code_points r3
        | _ => [b]
        end
  end.

(** One character of [py_encode_basestring_ascii]. *)
Definition escape_code_point (c : N) : string :=
  if N.eqb c 34 then backslash ++ chr 34
  else if N.eqb c 92 then backslash ++ backslash
  else if N.eqb c 10 then backslash ++ "n"
  else if N.eqb c 13 then backslash ++ "r"
  else if N.eqb c 9 then backslash ++ "t"
  else if N.eqb c 8 then backslash ++ "b"
  else if N.eqb c 12 then backslash ++ "f"
  else if N.leb 32 c && N.leb c 126 then chr c
  else if N.ltb c 65536 then backslash ++ "u" ++ hex4 c
  else
    let v := (c - 65536)%N in
    backslash ++ "u" ++ hex4 (55296 + v / 1024)%N
    ++ backslash ++ "u" ++ hex4 (56320 + v mod 1024)%N.

Definition json_string (s : string) : string :=
  (chr 34
   ++ String.concat EmptyString
        (map escape_code_point
             (code_points (map N_of_ascii (list_ascii_of_string s))))
   ++ chr 34)%string.

Fixpoint json_dumps (v : value) : string :=
  match v with
  | VNone => "null"
  | VBool true => "true"
  | VBool false => "false"
  | VInt z => NilZero.string_of_int (Z.to_int z)
  | VStr s => json_string s
  | VList l => ("[" ++ String.concat ", " (map json_dumps l) ++ "]")%string
  | VDict d =>
      ("{" ++ String.concat ", "
                (map (fun kv => json_string (fst kv) ++ ": "
                                ++ json_dumps (snd kv)) d)
       ++ "}")%string
  end.

(** [json.dumps(v).encode('utf-8')] *)
Definition json_dumps_utf8 (v : value) : list byte :=
  list_byte_of_string (json_dumps v).

(** [repr(s)] for a string of printable ASCII characters without quotes
    or backslashes, which is all the examples need: the string between
    single quotes. *)
Definition repr (s : string) : string := ("'" ++ s ++ "'")%string.

(** [json.loads] on the documents the examples keep in the cache; any
    other text is rejected. *)
Definition json_loads (s : string) : reply value :=
  if (s =? "{}")%string then Ok (VDict [])
  else if (s =? "null")%string then Ok VNone
  else Err (ForeignError "Expecting value").

(** [time.sleep(ms / 1000)] in CPython 3 on a 64-bit platform: a negative
    interval is a [ValueError]; an interval of more than 2^63 - 1
    nanoseconds is an [OverflowError]. *)
Definition time_sleep (ms : Z) : reply unit :=
  if Z.ltb ms 0 then Err (ForeignError "sleep length must be non-negative")
  else if Z.ltb 9223372036854 ms
       then Err (ForeignError
                   "timestamp too large to convert to C _PyTime_t")
       else Ok tt.

End Runtime.

(** ** Sample configurations, worlds and tasks for the examples *)

Module Sample.

(** The constructor defaults: 500 ms, 1024 KB, no blob store, no prefix. *)
Definition cfg : config :=
  {| worker_id := "worker-1";
     poll_interval_ms := 500;
     task_output_payload_size_threshold_kb := 1024;
     external_storage := None;
     worker_name_prefix := None |}.

(** A blob store that takes every upload. *)
Definition oss : OSSClient := fun _ _ _ => Ok tt.

(** Every payload is above a threshold of -1 KB. *)
Definition cfg_externalizing : config :=
  {| worker_id := "worker-1";
     poll_interval_ms := 500;
     task_output_payload_size_threshold_kb := -1;
     external_storage := Some oss;
     worker_name_prefix := Some "vines_" |}.

(** Workflow w2 is a sub-workflow of w1; the cache holds a context for w1
    only; every POST and every poll goes through, and no task is waiting. *)
Definition online : world :=
  {| http_get_workflow := fun _ wid =>
       if (wid =? "w2")%string then Ok (Some "w1") else Ok None;
     redis_get := fun _ key =>
       if (key =? "workflow:context:w1")%string then Ok (Some "{}")
       else Ok None;
     http_post_task := fun _ _ => Ok tt;
     http_poll_batch := fun _ _ _ _ => Ok [] |}.

(** As [online], but the orchestrator is out of reach for COMPLETED
    reports. *)
Definition flaky : world :=
  {| http_get_workflow := http_get_workflow online;
     redis_get := redis_get online;
     http_post_task := fun _ b =>
       if (r_status b =? "COMPLETED")%string
       then Err (ForeignError "Connection refused") else Ok tt;
     http_poll_batch := http_poll_batch online |}.

Definition t1 : task :=
  {| taskId := "t1"; workflowInstanceId := "w1"; inputData := VDict [] |}.

Definition t2 : task :=
  {| taskId := "t2"; workflowInstanceId := "w2"; inputData := VDict [] |}.

(** A task of a workflow without cached context. *)
Definition t3 : task :=
  {| taskId := "t3"; workflowInstanceId := "w3"; inputData := VDict [] |}.

Definition resize_image : callback :=
  fun _ _ => Ok (VDict [("width", VInt 100)]).

Definition disk_full : callback :=
  fun _ _ => Err (ForeignError "disk full").

Definition empty_result : callback := fun _ _ => Ok (VDict []).

(** A client with the given tasks in flight and nothing logged. *)
Definition in_flight (ts : list task) : state :=
  {| task_types := [];
     tasks := map (fun t => (taskId t, t)) ts;
     log := [] |}.

(** A client with two registered task types. *)
Definition two_types : state :=
  {| task_types := [("resize_image", resize_image); ("ocr", empty_result)];
     tasks := [];
     log := [] |}.

(** Workflows a and b are each other's parent. *)
Definition cyclic : world :=
  {| http_get_workflow := fun _ wid =>
       if (wid =? "a")%string then Ok (Some "b")
       else if (wid =? "b")%string then Ok (Some "a") else Ok None;
     redis_get := redis_get online;
     http_post_task := http_post_task online;
     http_poll_batch := http_poll_batch online |}.

(** A task of workflow a. *)
Definition t4 : task :=
  {| taskId := "t4"; workflowInstanceId := "a"; inputData := VDict [] |}.

(** As [online], with two tasks waiting for resize_image. *)
Definition busy : world :=
  {| http_get_workflow := http_get_workflow online;
     redis_get := redis_get online;
     http_post_task := http_post_task online;
     http_poll_batch := fun _ task_type _ _ =>
       if (task_type =? "resize_image")%string then Ok [t1; t2] else Ok [] |}.

(** As [online], but no POST reaches the orchestrator. *)
Definition offline : world :=
  {| http_get_workflow := http_get_workflow online;
     redis_get := redis_get online;
     http_post_task := fun _ _ => Err (ForeignError "Connection refused");
     http_poll_batch := http_poll_batch online |}.

(** The defaults, but for a threshold of 1 KB. *)
Definition cfg_1kb : config :=
  {| worker_id := "worker-1";
     poll_interval_ms := 500;
     task_output_payload_size_threshold_kb := 1;
     external_storage := None;
     worker_name_prefix := None |}.

(** A result of 200 numbers, 1800 bytes once serialized. *)
Definition big_result : value := VList (repeat (VInt 1234567) 200).

Definition big_handler : callback := fun _ _ => Ok big_result.

(** A handler whose result is a mapping of that size. *)
Definition big_mapping_handler : callback :=
  fun _ _ => Ok (VDict [("pixels", big_result)]).

(** As [online], with w5 a sub-workflow of w3, which has no cached
    context. *)
Definition nested : world :=
  {| http_get_workflow := fun _ wid =>
       if (wid =? "w5")%string then Ok (Some "w3") else Ok None;
     redis_get := redis_get online;
     http_post_task := http_post_task online;
     http_poll_batch := http_poll_batch online |}.

(** A task of workflow w5. *)
Definition t5 : task :=
  {| taskId := "t5"; workflowInstanceId := "w5"; inputData := VDict [] |}.

(** The defaults, but for a negative poll interval. *)
Definition cfg_negative : config :=
  {| worker_id := "worker-1";
     poll_interval_ms := -500;
     task_output_payload_size_threshold_kb := 1024;
     external_storage := None;
     worker_name_prefix := None |}.


End Sample.

(** ** Block registration

    [register_block] and its two helpers talk to two other endpoints and
    raise their own exception, so they get their own small log and result
    type.  A block is the dict the caller passes; the helper mutates it in
    place, which the model shows by returning the block as it is after the
    call. *)

Module Registration.

(** What [register_block] may raise. *)
Inductive raised : Type :=
| ServiceRegistrationException (message : value)
| NoSuchAttribute   (* AttributeError: [.get] on a value that is no dict *)
| WrongType         (* TypeError: iteration of, or item assignment to, a
                       value that does not support it *)
| RequestFailed (e : exn).  (* raised by requests.post or r.json() *)

Inductive result (A : Type) : Type :=
| Done (a : A)
| Raised (e : raised).
Arguments Raised {A} e.

Inductive call : Type :=
| PostTaskDefs (task_defs : value)
    (* POST {conductor_base_url}/metadata/taskdefs, json=[task_def] *)
| PostBlocks (body : value) (registration_key : string).
    (* POST {service_registration_url}/api/blocks/register, json=body,
       header x-vines-service-registration-key *)

(** The two endpoints: the first response is not read, the second is
    [r.json()]. *)
Record service : Type := {
  post_taskdefs : value -> reply unit;
  post_blocks : value -> string -> reply value
}.

(** [d.get(k)] on a dict: [None] for a missing key. *)
Definition get_or_none (k : string) (d : dict value) : value :=
  match Dict.get k d with
  | Some v => v
  | None => VNone
  end.

(** [v.get(k)] on any value. *)
Definition py_get (k : string) (v : value) : result value :=
  match v with
  | VDict d => Done (get_or_none k d)
  | _ => Raised NoSuchAttribute
  end.

(** [[item.get('name') for item in items]] on a list. *)
Fixpoint names_of_items (items : list value) : result (list value) :=
  match items with
  | [] => Done []
  | item :: items' =>
      match py_get "name" item with
      | Raised e => Raised e
      | Done n =>
          match names_of_items items' with
          | Raised e => Raised e
          | Done ns => Done (n :: ns)
          end
      end
  end.

(** [[item.get('name') for item in v]] on any value: a list is iterated; an
    empty dict or string has nothing to iterate; the items of a non-empty
    dict or string are strings, which have no [.get]; [None], booleans and
    numbers are not iterable. *)
Definition names (v : value) : result (list value) :=
  match v with
  | VList items => names_of_items items
  | VDict [] => Done []
  | VDict (_ :: _) => Raised NoSuchAttribute
  | VStr EmptyString => Done []
  | VStr (String _ _) => Raised NoSuchAttribute
  | VNone | VBool _ | VInt _ => Raised WrongType
  end.

(** [code != 200] is false for the number 200 only. *)
Definition is_200 (code : value) : bool :=
  match code with
  | VInt z => z =? 200
  | _ => false
  end.

Section Registration.

Variable cfg : config.
Variable service_registration_token : string.
Variable srv : service.

(** [__add_source_for_block(self, block)]: the block after the call, or the
    exception; both exceptions are raised before anything is assigned. *)
Definition add_source_for_block (block : dict value)
  : result (dict value) :=
  let block1 :=
    if negb (truthy (get_or_none "extra" block))
    then Dict.set "extra" (VDict []) block else block in
  match get_or_none "extra" block1 with
  | VDict extra =>
      let extra1 :=
        if negb (truthy (get_or_none "meta" extra))
        then Dict.set "meta" (VDict []) extra else extra in
      match get_or_none "meta" extra1 with
      | VDict meta =>
          Done (Dict.set "extra"
                  (VDict (Dict.set "meta"
                            (VDict (Dict.set "source"
                                             (VStr (worker_id cfg)) meta))
                            extra1))
                  block1)
      | _ => Raised WrongType
      end
  | _ => Raised NoSuchAttribute
  end.

(** The [task_def] dict of [register_block]. *)
Definition task_def (block : dict value) (input_keys output_keys : list value)
           (retry_count timeout_seconds : Z) (owner_email : string) : value :=
  VDict [("name", get_or_none "name" block);
         ("inputKeys", VList input_keys);
         ("outputKeys", VList output_keys);
         ("retryCount", VInt retry_count);
         ("timeoutSeconds", VInt timeout_seconds);
         ("ownerEmail", VStr owner_email)].

(** The part of [register_block] that reads the response of the
    registration service. *)
Definition check_response (json : value) : result unit :=
  match py_get "code" json with
  | Raised e => Raised e
  | Done code =>
      match py_get "message" json with
      | Raised e => Raised e
      | Done message =>
          if negb (is_200 code)
          then Raised (ServiceRegistrationException message)
          else
            let data := match json with
                        | VDict d =>
                            match Dict.get "data" d with
                            | Some v => v
                            | None => VDict []
                            end
                        | _ => VDict []
                        end in
            match py_get "success" data with
            | Raised e => Raised e
            | Done success =>
                if negb (truthy success)
                then Raised (ServiceRegistrationException
                               (VStr "Register blocks failed"))
                else Done tt
            end
      end
  end.

(** [register_block(self, block, retry_count=3, timeout_seconds=86400,
    owner_email='dev@infmonkeys.com')]: the outcome, the caller's block as
    the call leaves it, and the requests made. *)
Definition register_block (block : dict value)
           (retry_count timeout_seconds : Z) (owner_email : string)
  : result unit * dict value * list call :=
  match names (get_or_none "input" block) with
  | Raised e => (Raised e, block, [])
  | Done input_keys =>
      match names (get_or_none "output" block) with
      | Raised e => (Raised e, block, [])
      | Done output_keys =>
          let defs := VList [task_def block input_keys output_keys
                                      retry_count timeout_seconds
                                      owner_email] in
          match post_taskdefs srv defs with
          | Err e => (Raised (RequestFailed e), block, [PostTaskDefs defs])
          | Ok _ =>
              match add_source_for_block block with
              | Raised e => (Raised e, block, [PostTaskDefs defs])
              | Done block' =>
                  let body := VDict [("blocks", VList [VDict block'])] in
                  let calls := [PostTaskDefs defs;
                                PostBlocks body service_registration_token] in
                  match post_blocks srv body service_registration_token with
                  | Err e => (Raised (RequestFailed e), block', calls)
                  | Ok json => (check_response json, block', calls)
                  end
              end
          end
      end
  end.

End Registration.
End Registration.

(** Sample blocks and registration services for the examples. *)

Module RegistrationSample.

Definition block : dict value :=
  [("name", VStr "resize_image");
   ("input", VList [VDict [("name", VStr "url"); ("type", VStr "string")];
                    VDict [("type", VStr "number")]]);
   ("output", VList [VDict [("name", VStr "width")]]);
   ("extra", VDict [("meta", VDict [("icon", VStr "image")]);
                    ("estimateTime", VInt 3)])].

(** A block whose [extra] is a string. *)
Definition bad_block : dict value :=
  [("name", VStr "resize_image"); ("extra", VStr "beta")].


Definition accepting : Registration.service :=
  {| Registration.post_taskdefs := fun _ => Ok tt;
     Registration.post_blocks := fun _ _ =>
       Ok (VDict [("code", VInt 200);
                  ("data", VDict [("success", VBool true)])]) |}.

Definition rejecting : Registration.service :=
  {| Registration.post_taskdefs := fun _ => Ok tt;
     Registration.post_blocks := fun _ _ =>
       Ok (VDict [("code", VInt 403); ("message", VStr "invalid key")]) |}.

End RegistrationSample.

(** ** The client *)

Section Client.

(** [json.dumps(v).encode('utf-8')] *)
Variable json_dumps_utf8 : value -> list byte.
(** [json.loads(s)] *)
Variable json_loads : string -> reply value.
(** [repr(k)] of a string, which is what [str(KeyError(k))] prints. *)
Variable repr : string -> string.
(** [time.sleep(ms / 1000)]: whether the runtime takes the interval or
    raises ([ValueError] for a negative one, [OverflowError] for one that is
    too large). *)
Variable time_sleep : Z -> reply unit.

Variable cfg : config.
Variable w : world.

(** [str(e)] *)
Definition str (e : exn) : string :=
  match e with
  | Exception msg => msg
  | KeyError key => repr key
  | AttributeError msg => msg
  | ForeignError msg => msg
  end.

(** [register_handler(self, name, callback)] *)
Definition handler_name (name : string) : string :=
  match worker_name_prefix cfg with
  | Some prefix =>
      if truthy_str (Some prefix) then (prefix ++ name)%string else name
  | None => name
  end.

Definition register_handler (name : string) (cb : callback) : M unit :=
  let name := handler_name name in
  s <- get_state ;;
  set_task_types (Dict.set name cb (task_types s)).

(** [__poll_by_task_type(self, task_type, worker_id, count=1)] *)
Definition poll_by_task_type (task_type worker : string) (count : Z)
  : M (list task) :=
  request (PollBatch task_type worker count)
          (fun h => http_poll_batch w h task_type worker count).

(** [__get_workflow_context_cache_key] *)
Definition get_workflow_context_cache_key (workflow_instance_id : string)
  : string :=
  ("workflow:context:" ++ workflow_instance_id)%string.

(** [__get_real_workflow_instance_id_start_by_server]: one GET per turn of
    the [while] loop. *)
Fixpoint get_real_workflow_instance_id_start_by_server
         (fuel : nat) (workflow_instance_id : string) : M string :=
  match fuel with
  | O => diverge
  | S fuel' =>
      parent <- request (GetWorkflow workflow_instance_id)
                  (fun h => http_get_workflow w h workflow_instance_id) ;;
      match parent with
      | Some p =>
          if truthy_str (Some p)
          then get_real_workflow_instance_id_start_by_server fuel' p
          else ret workflow_instance_id
      | None => ret workflow_instance_id
      end
  end.

(** [get_workflow_context(self, workflow_instance_id)] *)
Definition get_workflow_context (fuel : nat) (workflow_instance_id : string)
  : M value :=
  root <- get_real_workflow_instance_id_start_by_server
            fuel workflow_instance_id ;;
  let key := get_workflow_context_cache_key root in
  str_result <- request (RedisGet key) (fun h => redis_get w h key) ;;
  match str_result with
  | None => raise (ContextNotFoundError root)
  | Some s => of_reply (json_loads s)
  end.

(** [status in ['COMPLETED', 'FAILED']] *)
Definition valid_status (status : string) : bool :=
  (status =? "COMPLETED")%string || (status =? "FAILED")%string.

(** [f"task/output/{task_id}.json"] *)
Definition storage_key (task_id : string) : string :=
  ("task/output/" ++ task_id ++ ".json")%string.

(** [size / 1024 > self.task_output_payload_size_threshold_kb], for the
    byte string [obj_bytes].  The division by 1024 is exact on a float (a
    power of two, sizes far below 2^53) and Python compares a float with an
    int by value, so the test is [1024 * threshold < size] on integers. *)
Definition exceeds_threshold (obj_bytes : list byte) : bool :=
  1024 * task_output_payload_size_threshold_kb cfg
  <? Z.of_nat (List.length obj_bytes).

(** [self.external_storage.upload_bytes(key, obj_bytes)] *)
Definition upload_bytes (key : string) (obj_bytes : list byte) : M unit :=
  match external_storage cfg with
  | None =>
      raise (AttributeError
               "'NoneType' object has no attribute 'upload_bytes'")
  | Some oss => request (UploadBytes key obj_bytes)
                        (fun h => oss h key obj_bytes)
  end.

(** The [body] dict of [update_task_result] once all its keys are set:
    the four keys of the literal, [outputData] and
    [externalOutputPayloadStoragePath] as the [if output_data:] block left
    them, and the optional arguments that are truthy. *)
Definition report_body
           (workflow_instance_id task_id status : string)
           (body_output_data : option value)
           (body_storage_path : option string)
           (reason_for_incompletion : option string)
           (callback_after_seconds : option Z)
           (worker : option string) : report :=
  {| r_workflowInstanceId := workflow_instance_id;
     r_taskId := task_id;
     r_status := status;
     r_workerId :=
       match worker with
       | Some wk => if truthy_str (Some wk) then wk else worker_id cfg
       | None => worker_id cfg
       end;
     r_outputData := body_output_data;
     r_externalOutputPayloadStoragePath := body_storage_path;
     r_reasonForIncompletion :=
       if truthy_str reason_for_incompletion
       then reason_for_incompletion else None;
     r_callbackAfterSeconds :=
       if truthy_num callback_after_seconds
       then callback_after_seconds else None |}.

(** [requests.post(f"{self.conductor_base_url}/tasks", json=body)] *)
Definition post_task (body : report) : M unit :=
  request (PostTask body) (fun h => http_post_task w h body).

(** [update_task_result(self, workflow_instance_id, task_id, status,
    output_data=None, reason_for_incompletion=None,
    callback_after_seconds=None, worker_id=None)] *)
Definition update_task_result
           (workflow_instance_id task_id status : string)
           (output_data : value)
           (reason_for_incompletion : option string)
           (callback_after_seconds : option Z)
           (worker : option string) : M unit :=
  if negb (valid_status status) then raise InvalidStatusError
  else
    out <- (if truthy output_data then
              let obj_bytes := json_dumps_utf8 output_data in
              if exceeds_threshold obj_bytes then
                let key := storage_key task_id in
                upload_bytes key obj_bytes ;;;
                ret (Some (VDict []), Some key)
              else ret (Some output_data, None)
            else ret (None, None)) ;;
    post_task (report_body workflow_instance_id task_id status
                           (fst out) (snd out) reason_for_incompletion
                           callback_after_seconds worker).

(** [del self.tasks[task_id]] *)
Definition del_task (task_id : string) : M unit :=
  s <- get_state ;;
  match Dict.del task_id (tasks s) with
  | Some d => set_tasks d
  | None => raise (KeyError task_id)
  end.

(** The [output_data] of the report in the [except] block. *)
Definition failure_output (e : exn) : value :=
  VDict [("success", VBool false); ("errMsg", VStr (str e))].

(** The body of the [except Exception as e:] block of [wrapper]. *)
Definition wrapper_except (t : task) (e : exn) : M unit :=
  update_task_result (workflowInstanceId t) (taskId t) "FAILED"
                     (failure_output e) None None None ;;;
  del_task (taskId t).

(** [callback_wrapper(callback, task)()], the target of the task's
    thread. *)
Definition wrapper (fuel : nat) (cb : callback) (t : task) : M unit :=
  let workflow_instance_id := workflowInstanceId t in
  let task_id := taskId t in
  try_except
    (workflow_context <- get_workflow_context fuel workflow_instance_id ;;
     result <- of_reply (cb t workflow_context) ;;
     if truthy result then
       update_task_result workflow_instance_id task_id "COMPLETED"
                          result None None None ;;;
       del_task task_id
     else ret tt)
    (wrapper_except t).

(** The body of [for task in tasks:] in [start_polling].  The thread is
    started, not run: the log records which task went to which task
    type. *)
Definition dispatch (task_type : string) (t : task) : M unit :=
  s <- get_state ;;
  match Dict.get task_type (task_types s) with
  | None => raise (KeyError task_type)
  | Some _ =>
      set_tasks (Dict.set (taskId t) t (tasks s)) ;;;
      request (ThreadStart task_type t) (fun _ => Ok tt)
  end.

(** [time.sleep(ms / 1000)]: the sleep is taken, and logged, when the
    runtime accepts the interval; otherwise its exception is raised. *)
Definition sleep (ms : Z) : M unit :=
  match time_sleep ms with
  | Ok _ => request (Sleep ms) (fun _ => Ok tt)
  | Err e => raise e
  end.

(** The body of [for task_type in self.task_types:]: the [try] block, whose
    exceptions are printed and dropped, then the sleep, which is outside
    the [try]. *)
Definition poll_one (task_type : string) : M unit :=
  try_except
    (polled <- poll_by_task_type task_type (worker_id cfg) 1 ;;
     for_each polled (dispatch task_type))
    (fun _ => ret tt) ;;;
  sleep (poll_interval_ms cfg).

(** One turn of the [while True:] loop of [start_polling]. *)
Definition poll_pass : M unit :=
  s <- get_state ;;
  for_each (Dict.keys (task_types s)) poll_one.

(** [start_polling(self)]: the loop has no exit of its own, so any number
    of turns ends in [Diverge], unless an exception leaves a turn. *)
Fixpoint start_polling (turns : nat) : M unit :=
  match turns with
  | O => diverge
  | S n => poll_pass ;;; start_polling n
  end.

(** The [output_data] of the reports of [set_all_tasks_to_failed_state]. *)
Definition restart_output : value :=
  VDict [("success", VBool false);
         ("errMsg", VStr "worker 已重启，请重新运行")].

(** The body of the [for] loop of [set_all_tasks_to_failed_state]. *)
Definition fail_one (task_id : string) : M unit :=
  s <- get_state ;;
  match Dict.get task_id (tasks s) with
  | None => raise (KeyError task_id)
  | Some t =>
      update_task_result (workflowInstanceId t) task_id "FAILED"
                         restart_output None None None
  end.

(** [set_all_tasks_to_failed_state(self)] *)
Definition set_all_tasks_to_failed_state : M unit :=
  s <- get_state ;;
  for_each (Dict.keys (tasks s)) fail_one.

(** ** Observations on a log *)

(** The bodies posted to [/tasks], in order. *)
Fixpoint posts (tr : trace) : list report :=
  match tr with
  | [] => []
  | PostTask b :: tr' => b :: posts tr'
  | _ :: tr' => posts tr'
  end.

(** The sleeps taken, in order. *)
Fixpoint sleeps (tr : trace) : list Z :=
  match tr with
  | [] => []
  | Sleep ms :: tr' => ms :: sleeps tr'
  | _ :: tr' => sleeps tr'
  end.

(** The reads of the cache, in order. *)
Fixpoint cache_reads (tr : trace) : list string :=
  match tr with
  | [] => []
  | RedisGet k :: tr' => k :: cache_reads tr'
  | _ :: tr' => cache_reads tr'
  end.

(** A request of context resolution: a parent lookup or a cache read. *)
Definition is_lookup (ev : event) : Prop :=
  match ev with
  | GetWorkflow _ | RedisGet _ => True
  | _ => False
  end.

(** The state after the requests [evs] have been logged. *)
Definition logged (s : state) (evs : trace) : state :=
  {| task_types := task_types s; tasks := tasks s; log := log s ++ evs |}.

(** Whenever it is asked, the orchestrator answers that [wid] has no
    parent ([parentWorkflowId] missing, null or empty). *)
Definition has_no_parent (wid : string) : Prop :=
  forall h, exists o,
    http_get_workflow w h wid = Ok o /\ truthy_str o = false.

(** Whenever it is asked, the orchestrator answers that the parent of
    [wid] is [p]. *)
Definition has_parent (wid p : string) : Prop :=
  p <> EmptyString /\ forall h, http_get_workflow w h wid = Ok (Some p).

(** [parent_chain wid path root]: [path] lists the ancestors of [wid], from
    its parent up to [root], which has no parent; the depth of the chain
    is the length of [path]. *)
Inductive parent_chain : string -> list string -> string -> Prop :=
| chain_root (root : string) :
    has_no_parent root -> parent_chain root [] root
| chain_parent (wid p : string) (path : list string) (root : string) :
    has_parent wid p -> parent_chain p path root ->
    parent_chain wid (p :: path) root.

(** The three ways into a terminal report: the handler returned a truthy
    result (COMPLETED with the result), context resolution raised, or the
    handler raised (FAILED with the stringified error).  The last state is
    the one the report call starts in. *)
Inductive executor_path (fuel : nat) (cb : callback) (t : task) (s : state)
  : string -> value -> state -> Prop :=
| path_synchronous (ctx v : value) (s1 : state) :
    get_workflow_context fuel (workflowInstanceId t) s = (Return ctx, s1) ->
    cb t ctx = Ok v -> truthy v = true ->
    executor_path fuel cb t s "COMPLETED" v s1
| path_context_raised (e : exn) (s1 : state) :
    get_workflow_context fuel (workflowInstanceId t) s = (Raise e, s1) ->
    executor_path fuel cb t s "FAILED"
      (VDict [("success", VBool false); ("errMsg", VStr (str e))]) s1
| path_handler_raised (ctx : value) (e : exn) (s1 : state) :
    get_workflow_context fuel (workflowInstanceId t) s = (Return ctx, s1) ->
    cb t ctx = Err e ->
    executor_path fuel cb t s "FAILED"
      (VDict [("success", VBool false); ("errMsg", VStr (str e))]) s1.

(** The log of a pass over the task types [names]: one segment per task
    type, each a poll of that type, some dispatches and one sleep. *)
Inductive pass_log : list string -> trace -> Prop :=
| pass_nil : pass_log [] []
| pass_cons (task_type : string) (names : list string) (mid rest : trace) :
    sleeps mid = [] ->
    pass_log names rest ->
    pass_log (task_type :: names)
             (PollBatch task_type (worker_id cfg) 1 :: mid
              ++ Sleep (poll_interval_ms cfg) :: rest).

(** The report of [set_all_tasks_to_failed_state] for the registry entry
    [task_id]: FAILED, the restart message in [outputData.errMsg], no
    [reasonForIncompletion], no storage path. *)
Definition restart_report (registry : dict task) (task_id : string)
           (b : report) : Prop :=
  r_taskId b = task_id
  /\ r_status b = "FAILED"%string
  /\ r_outputData b
     = Some (VDict [("success", VBool false);
                    ("errMsg", VStr "worker 已重启，请重新运行")])
  /\ r_reasonForIncompletion b = None
  /\ r_externalOutputPayloadStoragePath b = None
  /\ exists t, Dict.get task_id registry = Some t
               /\ r_workflowInstanceId b = workflowInstanceId t.

(** The task types polled, in order. *)
Fixpoint polls (tr : trace) : list string :=
  match tr with
  | [] => []
  | PollBatch task_type _ _ :: tr' => task_type :: polls tr'
  | _ :: tr' => polls tr'
  end.

(** The in-flight registry after the tasks [polled] have been entered, one
    after the other. *)
Definition entered (polled : list task) (registry : dict task) : dict task :=
  fold_left (fun d t => Dict.set (taskId t) t d) polled registry.

Lemma posts_app (tr1 tr2 : trace) : posts (tr1 ++ tr2) = posts tr1 ++ posts tr2.
Proof.
  induction tr1 as [|ev tr1 IH]; simpl; [reflexivity|].
  destruct ev; simpl; rewrite ?IH; reflexivity.
Qed.

Lemma sleeps_app (tr1 tr2 : trace) :
  sleeps (tr1 ++ tr2) = sleeps tr1 ++ sleeps tr2.
Proof.
  induction tr1 as [|ev tr1 IH]; simpl; [reflexivity|].
  destruct ev; simpl; rewrite ?IH; reflexivity.
Qed.

Lemma posts_lookups (evs : trace) : Forall is_lookup evs -> posts evs = [].
Proof.
  induction 1 as [|ev evs Hev _ IH]; simpl; [reflexivity|].
  destruct ev; simpl in *; (contradiction || assumption).
Qed.

(** ** Facts about dicts *)

Section DictFacts.
Variable V : Type.
Implicit Types (d : dict V) (k : string) (v : V).

Lemma get_set_same k v d : Dict.get k (Dict.set k v d) = Some v.
Proof.
  induction d as [|[k' v'] d IH]; simpl.
  - rewrite String.eqb_refl. reflexivity.
  - destruct (k =? k')%string eqn:E; simpl.
    + rewrite String.eqb_refl. reflexivity.
    + rewrite E. exact IH.
Qed.

Lemma keys_set_present k v d :
  Dict.mem k d = true -> Dict.keys (Dict.set k v d) = Dict.keys d.
Proof.
  unfold Dict.mem, Dict.keys. induction d as [|[k' v'] d IH]; simpl.
  - discriminate.
  - destruct (k =? k')%string eqn:E; simpl.
    + apply String.eqb_eq in E. subst. reflexivity.
    + intros H. f_equal. apply IH. exact H.
Qed.

Lemma mem_set_same k v d : Dict.mem k (Dict.set k v d) = true.
Proof. unfold Dict.mem. rewrite get_set_same. reflexivity. Qed.

Lemma get_remove_same k d : Dict.get k (Dict.remove k d) = None.
Proof.
  unfold Dict.remove. induction d as [|[k' v'] d IH]; simpl.
  - reflexivity.
  - destruct (k =? k')%string eqn:E; simpl.
    + exact IH.
    + rewrite E. exact IH.
Qed.

Lemma get_in_keys k d :
  In k (Dict.keys d) -> exists v, Dict.get k d = Some v.
Proof.
  induction d as [|[k' v'] d IH]; simpl.
  - contradiction.
  - destruct (k =? k')%string eqn:E.
    + intros _. eexists. reflexivity.
    + intros [H|H].
      * subst. rewrite String.eqb_refl in E. discriminate.
      * apply IH. exact H.
Qed.
End DictFacts.

(** ** Properties of the client *)

(** *** The result reporter *)

Lemma valid_status_false (status : string) :
  status <> "COMPLETED" -> status <> "FAILED" -> valid_status status = false.
Proof.
  intros H1 H2. unfold valid_status.
  apply String.eqb_neq in H1, H2. rewrite H1, H2. reflexivity.
Qed.

(** C6.  A status other than COMPLETED and FAILED makes
    [update_task_result] raise [InvalidStatusError] in the state it was
    called in: the log has no new request (no upload, no POST), and the
    outcome is the same for any serializer, so the payload is not
    serialized on the way. *)
Theorem invalid_status_raises_before_io
        (workflow_instance_id task_id status : string) (output_data : value)
        (reason : option string) (after : option Z) (worker : option string)
        (s : state) :
  status <> "COMPLETED" -> status <> "FAILED" ->
  update_task_result workflow_instance_id task_id status output_data
                     reason after worker s
  = (Raise InvalidStatusError, s).
Proof.
  intros H1 H2. unfold update_task_result.
  rewrite (valid_status_false H1 H2). reflexivity.
Qed.

(** *** Binding handlers *)

(** C8.  [register_handler] stores the handler under the prefixed name
    when a prefix is configured and under the bare name otherwise; a
    second binding of the same name replaces the handler and adds no
    key. *)
Theorem register_handler_last_write_wins
        (name : string) (cb1 cb2 : callback) (s : state) :
  let key := match worker_name_prefix cfg with
             | Some prefix => (prefix ++ name)%string
             | None => name
             end in
  let s1 := snd (register_handler name cb1 s) in
  let s2 := snd (register_handler name cb2 s1) in
  fst (register_handler name cb1 s) = Return tt /\
  task_types s1 = Dict.set key cb1 (task_types s) /\
  Dict.get key (task_types s1) = Some cb1 /\
  Dict.get key (task_types s2) = Some cb2 /\
  Dict.keys (task_types s2) = Dict.keys (task_types s1).
Proof.
  assert (Hname : handler_name name
                  = match worker_name_prefix cfg with
                    | Some prefix => (prefix ++ name)%string
                    | None => name
                    end).
  { unfold handler_name. destruct (worker_name_prefix cfg) as [p|]; auto.
    simpl. destruct (p =? EmptyString)%string eqn:E; simpl; auto.
    apply String.eqb_eq in E. subst. reflexivity. }
  unfold register_handler, bind, get_state, set_task_types. simpl.
  rewrite Hname. repeat split.
  - apply get_set_same.
  - apply get_set_same.
  - apply keys_set_present. apply mem_set_same.
Qed.

Lemma request_eq {A} (ev : event) (answer : trace -> reply A) (s : state) :
  request ev answer s
  = (match answer (log s) with Ok a => Return a | Err e => Raise e end,
     logged s [ev]).
Proof. unfold request, logged. destruct (answer (log s)); reflexivity. Qed.

Lemma logged_logged (s : state) (evs1 evs2 : trace) :
  logged (logged s evs1) evs2 = logged s (evs1 ++ evs2).
Proof. unfold logged. simpl. rewrite <- app_assoc. reflexivity. Qed.

Lemma post_task_eq (b : report) (s : state) :
  post_task b s
  = (match http_post_task w (log s) b with
     | Ok a => Return a
     | Err e => Raise e
     end, logged s [PostTask b]).
Proof. unfold post_task. apply request_eq. Qed.

(** [update_task_result] with a valid status, case by case. *)
Lemma update_task_result_cases
      (wid tid status : string) (od : value) (reason : option string)
      (after : option Z) (worker : option string) (s : state) :
  valid_status status = true ->
  update_task_result wid tid status od reason after worker s =
  if truthy od then
    if exceeds_threshold (json_dumps_utf8 od) then
      match external_storage cfg with
      | None =>
          (Raise (AttributeError
                    "'NoneType' object has no attribute 'upload_bytes'"), s)
      | Some oss =>
          match oss (log s) (storage_key tid) (json_dumps_utf8 od) with
          | Ok _ =>
              post_task
                (report_body wid tid status (Some (VDict []))
                             (Some (storage_key tid)) reason after worker)
                (logged s [UploadBytes (storage_key tid) (json_dumps_utf8 od)])
          | Err e =>
              (Raise e,
               logged s [UploadBytes (storage_key tid) (json_dumps_utf8 od)])
          end
      end
    else post_task (report_body wid tid status (Some od) None
                                reason after worker) s
  else post_task (report_body wid tid status None None reason after worker) s.
Proof.
  intros Hv. unfold update_task_result. rewrite Hv. simpl.
  unfold bind, ret, upload_bytes, raise.
  destruct (truthy od); [|reflexivity].
  destruct (exceeds_threshold (json_dumps_utf8 od)); [|reflexivity].
  destruct (external_storage cfg) as [oss|]; [|reflexivity].
  rewrite request_eq.
  destruct (oss (log s) (storage_key tid) (json_dumps_utf8 od)); reflexivity.
Qed.

(** The reporter changes neither dict, and posts at most once. *)
Lemma update_task_result_frame
      (wid tid status : string) (od : value) (reason : option string)
      (after : option Z) (worker : option string) (s : state) :
  let r := update_task_result wid tid status od reason after worker s in
  tasks (snd r) = tasks s /\ task_types (snd r) = task_types s /\
  fst r <> Diverge /\
  exists l, posts (log (snd r)) = posts (log s) ++ l /\
            (List.length l <= 1)%nat /\
            (fst r = Return tt -> exists b, l = [b]).
Proof.
  intros r. subst r.
  destruct (valid_status status) eqn:Hv.
  - rewrite update_task_result_cases by exact Hv.
    destruct (truthy od);
      [destruct (exceeds_threshold (json_dumps_utf8 od));
       [destruct (external_storage cfg) as [oss|];
        [destruct (oss (log s) (storage_key tid) (json_dumps_utf8 od))|]|]|];
      rewrite ?post_task_eq; simpl.
    all: repeat split.
    all: try (destruct (http_post_task w _ _); discriminate).
    all: try discriminate.
    all: rewrite ?posts_app; simpl; rewrite <- ?app_assoc; simpl.
    all: first
           [ eexists; split; [reflexivity|]; split; [simpl; lia|];
             first [ intros H; discriminate H
                   | intros _; eexists; reflexivity ]
           | exists []; rewrite app_nil_r; split; [reflexivity|];
             split; [simpl; lia | intros H; discriminate H] ].
  - unfold update_task_result. rewrite Hv. simpl. repeat split.
    + discriminate.
    + exists []. rewrite app_nil_r. repeat split; simpl; try lia.
      intros H; discriminate H.
Qed.

Lemma storage_key_nonempty (tid : string) : storage_key tid <> EmptyString.
Proof. unfold storage_key. simpl. discriminate. Qed.

(** C3 (amended).  With a valid status, what the reporter does with
    [output_data] depends on its truth value first.  A truthy [output_data]
    whose serialized size exceeds the threshold is uploaded under
    [task/output/<task id>.json]; when the upload returns, the one request
    that follows is the report, with an empty inline [outputData] and that
    non-empty key as storage path; when there is no blob store or the upload
    raises, the exception leaves the reporter and no report is sent.  A
    truthy [output_data] at or below the threshold is reported inline,
    without storage path.  A falsy [output_data] ([None], [{}], ...) is
    reported with neither key. *)
Theorem report_payload_by_size
        (wid tid status : string) (od : value) (reason : option string)
        (after : option Z) (worker : option string) (s : state) :
  valid_status status = true ->
  let r := update_task_result wid tid status od reason after worker s in
  let obj_bytes := json_dumps_utf8 od in
  let key := storage_key tid in
  if truthy od then
    if 1024 * task_output_payload_size_threshold_kb cfg
       <? Z.of_nat (List.length obj_bytes)
    then
      match external_storage cfg with
      | Some oss =>
          match oss (log s) key obj_bytes with
          | Ok _ =>
              exists b,
              log (snd r) = log s ++ [UploadBytes key obj_bytes; PostTask b]
              /\ r_status b = status /\ r_taskId b = tid
              /\ r_outputData b = Some (VDict [])
              /\ r_externalOutputPayloadStoragePath b = Some key
              /\ key <> EmptyString
          | Err e => r = (Raise e, logged s [UploadBytes key obj_bytes])
          end
      | None =>
          r = (Raise (AttributeError
                        "'NoneType' object has no attribute 'upload_bytes'"),
               s)
      end
    else
      exists b,
      log (snd r) = log s ++ [PostTask b]
      /\ r_status b = status /\ r_taskId b = tid
      /\ r_outputData b = Some od
      /\ r_externalOutputPayloadStoragePath b = None
  else
    exists b,
    log (snd r) = log s ++ [PostTask b]
    /\ r_status b = status /\ r_taskId b = tid
    /\ r_outputData b = None
    /\ r_externalOutputPayloadStoragePath b = None.
Proof.
  intros Hv r obj_bytes key. subst r obj_bytes key.
  rewrite update_task_result_cases by exact Hv.
  fold (exceeds_threshold (json_dumps_utf8 od)).
  destruct (truthy od).
  - destruct (exceeds_threshold (json_dumps_utf8 od)).
    + destruct (external_storage cfg) as [oss|]; [|reflexivity].
      destruct (oss (log s) (storage_key tid) (json_dumps_utf8 od));
        [|reflexivity].
      rewrite post_task_eq. eexists. simpl. rewrite <- app_assoc. simpl.
      repeat split. apply storage_key_nonempty.
    + rewrite post_task_eq. eexists. simpl. repeat split.
  - rewrite post_task_eq. eexists. simpl. repeat split.
Qed.

(** *** Context resolution *)

Lemma last_cons_default {A} (x : A) (l : list A) (d d' : A) :
  last (x :: l) d = last (x :: l) d'.
Proof.
  revert x. induction l as [|y l IH]; intros x; [reflexivity|].
  change (last (y :: l) d = last (y :: l) d'). apply IH.
Qed.

Lemma parent_chain_last (wid : string) (path : list string) (root : string) :
  parent_chain wid path root -> last path wid = root.
Proof.
  induction 1 as [root _|wid p path root _ Hc IH]; [reflexivity|].
  destruct path as [|q path].
  - inversion Hc; subst. reflexivity.
  - rewrite <- IH. change (last (q :: path) wid = last (q :: path) p).
    apply last_cons_default.
Qed.

Lemma get_real_id_chain (wid : string) (path : list string) (root : string) :
  parent_chain wid path root ->
  forall (fuel : nat) (s : state),
    (List.length path < fuel)%nat ->
    get_real_workflow_instance_id_start_by_server fuel wid s
    = (Return root, logged s (map GetWorkflow (wid :: path))).
Proof.
  induction 1 as [root Hroot|wid p path root [Hp Hget] _ IH];
    intros fuel s Hfuel; (destruct fuel as [|fuel]; [simpl in Hfuel; lia|]).
  - simpl. unfold bind. rewrite request_eq.
    destruct (Hroot (log s)) as [o [-> Ho]].
    destruct o as [q|]; [|reflexivity].
    simpl in Ho. rewrite Ho. reflexivity.
  - simpl. unfold bind. rewrite request_eq, Hget.
    apply String.eqb_neq in Hp. simpl. rewrite Hp. simpl.
    rewrite IH by (simpl in Hfuel; lia).
    rewrite logged_logged. reflexivity.
Qed.

(** The walk up the parent chain only looks workflows up. *)
Lemma get_real_id_frame (fuel : nat) :
  forall (wid : string) (s : state),
  exists evs,
    snd (get_real_workflow_instance_id_start_by_server fuel wid s)
    = logged s evs /\ Forall is_lookup evs.
Proof.
  induction fuel as [|fuel IH]; intros wid s; simpl.
  - exists []. unfold logged. rewrite app_nil_r. destruct s. split; auto.
  - unfold bind. rewrite request_eq.
    destruct (http_get_workflow w (log s) wid) as [[p|]|e].
    + destruct (p =? EmptyString)%string; simpl.
      * eexists. split; [reflexivity|]. repeat constructor.
      * destruct (IH p (logged s [GetWorkflow wid])) as [evs [E F]].
        rewrite E, logged_logged. eexists. split; [reflexivity|].
        constructor; simpl; auto.
    + eexists. split; [reflexivity|]. repeat constructor.
    + eexists. split; [reflexivity|]. repeat constructor.
Qed.

(** Context resolution only looks up: parent lookups and a cache read. *)
Lemma get_workflow_context_frame (fuel : nat) (wid : string) (s : state) :
  exists evs,
    snd (get_workflow_context fuel wid s) = logged s evs
    /\ Forall is_lookup evs.
Proof.
  unfold get_workflow_context, bind.
  destruct (get_real_id_frame fuel wid s) as [evs [E F]].
  destruct (get_real_workflow_instance_id_start_by_server fuel wid s)
    as [[root|e|] s1]; simpl in E; subst s1.
  - rewrite request_eq, logged_logged.
    assert (F' : Forall is_lookup
                   (evs ++ [RedisGet (get_workflow_context_cache_key root)])).
    { apply Forall_app. split; [exact F|]. repeat constructor. }
    destruct (redis_get w _ _) as [[doc|]|e]; simpl.
    + unfold of_reply. destruct (json_loads doc); simpl;
        eexists; (split; [reflexivity | exact F']).
    + eexists; (split; [reflexivity | exact F']).
    + eexists; (split; [reflexivity | exact F']).
  - eexists; (split; [reflexivity | exact F]).
  - eexists; (split; [reflexivity | exact F]).
Qed.

Lemma get_workflow_context_posts (fuel : nat) (wid : string) (s : state) :
  let s1 := snd (get_workflow_context fuel wid s) in
  tasks s1 = tasks s /\ task_types s1 = task_types s
  /\ posts (log s1) = posts (log s).
Proof.
  destruct (get_workflow_context_frame fuel wid s) as [evs [E F]].
  simpl. rewrite E. simpl. repeat split.
  rewrite posts_app, (posts_lookups F), app_nil_r. reflexivity.
Qed.

(** C5.  When the orchestrator knows a parent chain of depth
    [length path] from [wid] up to [root], and the cache holds [doc] under
    the key of [root], context resolution returns the decoded [doc]: it
    looks up [wid] and each ancestor once, then reads the cache once, under
    the key of [root].  With an empty [path] the root is [wid] itself. *)
Theorem context_is_cached_under_root
        (wid : string) (path : list string) (root doc : string) (ctx : value)
        (fuel : nat) (s : state) :
  parent_chain wid path root ->
  (forall h, redis_get w h (get_workflow_context_cache_key root)
             = Ok (Some doc)) ->
  json_loads doc = Ok ctx ->
  (List.length path < fuel)%nat ->
  root = last path wid /\
  get_workflow_context fuel wid s
  = (Return ctx,
     logged s (map GetWorkflow (wid :: path)
               ++ [RedisGet ("workflow:context:" ++ root)%string])).
Proof.
  intros Hchain Hcache Hdoc Hfuel. split.
  - symmetry. apply parent_chain_last. exact Hchain.
  - unfold get_workflow_context, bind.
    rewrite (get_real_id_chain Hchain) by exact Hfuel.
    rewrite request_eq, Hcache, logged_logged. unfold of_reply.
    rewrite Hdoc. reflexivity.
Qed.

(** *** The task executor *)

Lemma del_task_present (tid : string) (s : state) :
  Dict.mem tid (tasks s) = true ->
  del_task tid s
  = (Return tt, {| task_types := task_types s;
                   tasks := Dict.remove tid (tasks s);
                   log := log s |}).
Proof.
  intros H. unfold del_task, bind, get_state, Dict.del. rewrite H.
  reflexivity.
Qed.

(** The executor when context resolution raises: the [except] block runs
    in the state context resolution left. *)
Lemma wrapper_context_raised
      (fuel : nat) (cb : callback) (t : task) (s s1 : state) (e : exn) :
  get_workflow_context fuel (workflowInstanceId t) s = (Raise e, s1) ->
  wrapper fuel cb t s = wrapper_except t e s1.
Proof.
  intros H. unfold wrapper, try_except, bind. rewrite H. reflexivity.
Qed.

(** The executor when the handler raises. *)
Lemma wrapper_handler_raised
      (fuel : nat) (cb : callback) (t : task) (s s1 : state)
      (ctx : value) (e : exn) :
  get_workflow_context fuel (workflowInstanceId t) s = (Return ctx, s1) ->
  cb t ctx = Err e ->
  wrapper fuel cb t s = wrapper_except t e s1.
Proof.
  intros H Hcb. unfold wrapper, try_except, bind. rewrite H, Hcb.
  reflexivity.
Qed.

(** The executor when the handler returns a falsy value. *)
Lemma wrapper_falsy
      (fuel : nat) (cb : callback) (t : task) (s s1 : state)
      (ctx v : value) :
  get_workflow_context fuel (workflowInstanceId t) s = (Return ctx, s1) ->
  cb t ctx = Ok v -> truthy v = false ->
  wrapper fuel cb t s = (Return tt, s1).
Proof.
  intros H Hcb Hv. unfold wrapper, try_except, bind. rewrite H, Hcb.
  simpl. rewrite Hv. reflexivity.
Qed.

(** The executor when the handler returns a truthy value: the COMPLETED
    report and the removal run inside the [try] block. *)
Lemma wrapper_truthy
      (fuel : nat) (cb : callback) (t : task) (s s1 : state)
      (ctx v : value) :
  get_workflow_context fuel (workflowInstanceId t) s = (Return ctx, s1) ->
  cb t ctx = Ok v -> truthy v = true ->
  wrapper fuel cb t s
  = try_except
      (update_task_result (workflowInstanceId t) (taskId t) "COMPLETED"
                          v None None None ;;;
       del_task (taskId t))
      (wrapper_except t) s1.
Proof.
  intros H Hcb Hv. unfold wrapper, try_except, bind. rewrite H, Hcb.
  simpl. rewrite Hv. reflexivity.
Qed.

Lemma cache_reads_app (tr1 tr2 : trace) :
  cache_reads (tr1 ++ tr2) = cache_reads tr1 ++ cache_reads tr2.
Proof.
  induction tr1 as [|ev tr1 IH]; simpl; [reflexivity|].
  destruct ev; simpl; rewrite ?IH; reflexivity.
Qed.

Lemma lookups_only (ids : list string) :
  posts (map GetWorkflow ids) = []
  /\ cache_reads (map GetWorkflow ids) = [].
Proof. induction ids as [|x ids IH]; simpl; auto. Qed.

(** C7.  When the parent chain of a workflow ends at [root] and the cache
    has nothing under the key of [root], context resolution raises
    [ContextNotFoundError] for [root] after one lookup per workflow of the
    chain and one cache read, and the executor of a task of that workflow
    goes on with its [except] block: a FAILED report whose [errMsg] is the
    message of the error.  When that payload is within the size threshold,
    the next request is that report, with the payload inline. *)
Theorem missing_context_fails_task
        (wid : string) (path : list string) (root : string) (fuel : nat)
        (cb : callback) (t : task) (s : state) :
  parent_chain wid path root ->
  (forall h, redis_get w h (get_workflow_context_cache_key root) = Ok None) ->
  workflowInstanceId t = wid ->
  (List.length path < fuel)%nat ->
  let e := Exception ("无法获取 workflow context for workflowInstanceId="
                      ++ root)%string in
  let s1 := logged s (map GetWorkflow (wid :: path)
                      ++ [RedisGet (get_workflow_context_cache_key root)]) in
  get_workflow_context fuel wid s = (Raise e, s1)
  /\ cache_reads (log s1) = cache_reads (log s)
                            ++ [get_workflow_context_cache_key root]
  /\ wrapper fuel cb t s
     = (update_task_result wid (taskId t) "FAILED"
                           (VDict [("success", VBool false);
                                   ("errMsg", VStr (str e))])
                           None None None ;;;
        del_task (taskId t)) s1
  /\ (exceeds_threshold
        (json_dumps_utf8 (VDict [("success", VBool false);
                                 ("errMsg", VStr (str e))])) = false ->
      exists b,
        log (snd (wrapper fuel cb t s)) = log s1 ++ [PostTask b]
        /\ r_status b = "FAILED"%string /\ r_taskId b = taskId t
        /\ r_outputData b
           = Some (VDict [("success", VBool false);
                          ("errMsg",
                           VStr ("无法获取 workflow context for workflowInstanceId="
                                 ++ root)%string)])).
Proof.
  intros Hchain Hcache Ht Hfuel e s1.
  assert (Hctx : get_workflow_context fuel wid s = (Raise e, s1)).
  { unfold get_workflow_context, bind.
    rewrite (get_real_id_chain Hchain) by exact Hfuel.
    rewrite request_eq, Hcache, logged_logged. reflexivity. }
  assert (Hw : wrapper fuel cb t s = wrapper_except t e s1).
  { apply wrapper_context_raised. rewrite Ht. exact Hctx. }
  split; [exact Hctx|]. split.
  { subst s1. unfold logged. cbn [log].
    destruct (lookups_only (wid :: path)) as [_ Hc].
    rewrite !cache_reads_app, Hc. reflexivity. }
  split.
  { rewrite Hw. unfold wrapper_except, failure_output. rewrite Ht.
    reflexivity. }
  intros Hsmall. rewrite Hw. unfold wrapper_except, bind, failure_output.
  rewrite update_task_result_cases by reflexivity.
  cbn [truthy]. rewrite Hsmall, post_task_eq.
  eexists.
  destruct (http_post_task w (log s1) _); simpl.
  - unfold del_task, bind, get_state. simpl.
    destruct (Dict.del (taskId t) (tasks s)); simpl; repeat split.
  - repeat split.
Qed.

(** C9.  When the handler returns a falsy value ([{}], [0], the empty string, [[]],
    [False] as well as [None]), the executor ends in the state context
    resolution left: no report is posted, the in-flight registry still holds
    what it held, and the run is the run of a handler that returns [None]. *)
Theorem falsy_result_is_deferred
        (fuel : nat) (cb : callback) (t : task) (s s1 : state)
        (ctx v : value) :
  get_workflow_context fuel (workflowInstanceId t) s = (Return ctx, s1) ->
  cb t ctx = Ok v ->
  truthy v = false ->
  wrapper fuel cb t s = (Return tt, s1)
  /\ tasks s1 = tasks s
  /\ posts (log s1) = posts (log s)
  /\ (exists evs, log s1 = log s ++ evs /\ Forall is_lookup evs)
  /\ wrapper fuel cb t s = wrapper fuel (fun _ _ => Ok VNone) t s.
Proof.
  intros Hctx Hcb Hv.
  pose proof (get_workflow_context_posts fuel (workflowInstanceId t) s) as P.
  destruct (get_workflow_context_frame fuel (workflowInstanceId t) s)
    as [evs [E F]].
  rewrite Hctx in P, E. simpl in P, E. destruct P as [P1 [_ P3]].
  split; [exact (@wrapper_falsy _ _ _ _ _ _ _ Hctx Hcb Hv)|].
  split; [exact P1|]. split; [exact P3|]. split.
  - exists evs. rewrite E. split; [reflexivity | exact F].
  - rewrite (@wrapper_falsy _ _ _ _ _ _ _ Hctx Hcb Hv).
    symmetry. eapply wrapper_falsy; [exact Hctx | reflexivity | reflexivity].
Qed.

(** What a returned report call has done, for a valid status and a truthy
    [output_data]. *)
Lemma update_task_result_returned
      (wid tid status : string) (od : value) (s1 s2 : state) :
  valid_status status = true -> truthy od = true ->
  update_task_result wid tid status od None None None s1 = (Return tt, s2) ->
  tasks s2 = tasks s1 /\ task_types s2 = task_types s1
  /\ posts (log s2)
     = posts (log s1)
       ++ [report_body wid tid status
             (if exceeds_threshold (json_dumps_utf8 od)
              then Some (VDict []) else Some od)
             (if exceeds_threshold (json_dumps_utf8 od)
              then Some (storage_key tid) else None)
             None None None].
Proof.
  intros Hv Hod. rewrite update_task_result_cases by exact Hv. rewrite Hod.
  destruct (exceeds_threshold (json_dumps_utf8 od)).
  - destruct (external_storage cfg) as [oss|]; [|discriminate].
    destruct (oss (log s1) (storage_key tid) (json_dumps_utf8 od));
      [|discriminate].
    rewrite post_task_eq. intros H. inversion H; subst. simpl.
    rewrite !posts_app. simpl. rewrite app_nil_r. repeat split.
  - rewrite post_task_eq. intros H. inversion H; subst. simpl.
    rewrite !posts_app. simpl. repeat split.
Qed.

(** C1 (amended).  For a task that is in the in-flight registry, on the
    synchronous path and on the two failure paths, when the report call
    returns: the
    executor returns, exactly one report has been posted since it started,
    with status COMPLETED for the handler's result and FAILED for
    [{success: False, errMsg: str(e)}], and the task is no longer in the
    registry.  The report carries the payload inline when its size is within
    the threshold, and as a storage path otherwise. *)
Theorem one_terminal_report
        (fuel : nat) (cb : callback) (t : task) (s s1 s2 : state)
        (status : string) (od : value) :
  Dict.mem (taskId t) (tasks s) = true ->
  executor_path fuel cb t s status od s1 ->
  update_task_result (workflowInstanceId t) (taskId t) status od
                     None None None s1 = (Return tt, s2) ->
  wrapper fuel cb t s
  = (Return tt, {| task_types := task_types s;
                   tasks := Dict.remove (taskId t) (tasks s);
                   log := log s2 |})
  /\ Dict.get (taskId t) (Dict.remove (taskId t) (tasks s)) = None
  /\ exists b,
       posts (log s2) = posts (log s) ++ [b]
       /\ r_status b = status
       /\ r_taskId b = taskId t
       /\ r_workflowInstanceId b = workflowInstanceId t
       /\ if exceeds_threshold (json_dumps_utf8 od)
          then r_outputData b = Some (VDict [])
               /\ r_externalOutputPayloadStoragePath b
                  = Some (storage_key (taskId t))
          else r_outputData b = Some od
               /\ r_externalOutputPayloadStoragePath b = None.
Proof.
  intros Hmem Hpath Hupd.
  assert (Hframe : tasks s1 = tasks s /\ task_types s1 = task_types s
                   /\ posts (log s1) = posts (log s)).
  { pose proof (get_workflow_context_posts fuel (workflowInstanceId t) s) as P.
    destruct Hpath as [ctx v s1 H _ _|e s1 H|ctx e s1 H _];
      rewrite H in P; exact P. }
  destruct Hframe as [Ht [Hty Hp]].
  assert (Hvalid : valid_status status = true /\ truthy od = true).
  { destruct Hpath; auto. }
  destruct Hvalid as [Hvalid Hod].
  destruct (@update_task_result_returned _ _ _ _ _ _ Hvalid Hod Hupd)
    as [Ht2 [Hty2 Hp2]].
  assert (Hdel : del_task (taskId t) s2
                 = (Return tt, {| task_types := task_types s;
                                  tasks := Dict.remove (taskId t) (tasks s);
                                  log := log s2 |})).
  { rewrite del_task_present by (rewrite Ht2, Ht; exact Hmem).
    rewrite Ht2, Ht, Hty2, Hty. reflexivity. }
  split; [|split].
  - destruct Hpath as [ctx v s1 H Hcb Hv|e s1 H|ctx e s1 H Hcb].
    + rewrite (@wrapper_truthy _ _ _ _ _ _ _ H Hcb Hv).
      unfold try_except, bind. rewrite Hupd. rewrite Hdel. reflexivity.
    + rewrite (@wrapper_context_raised _ cb _ _ _ _ H).
      unfold wrapper_except, bind, failure_output. rewrite Hupd. exact Hdel.
    + rewrite (@wrapper_handler_raised _ _ _ _ _ _ _ H Hcb).
      unfold wrapper_except, bind, failure_output. rewrite Hupd. exact Hdel.
  - apply get_remove_same.
  - eexists. split; [rewrite Hp2, Hp; reflexivity|].
    simpl. repeat split.
    destruct (exceeds_threshold (json_dumps_utf8 od)); split; reflexivity.
Qed.

(** C2 (amended).  When the COMPLETED report call raises, the exception is
    caught by the executor's own [except] block: a FAILED report with the
    stringified error is attempted next.  When that FAILED report call
    raises, the exception leaves the executor and nothing further is
    attempted.  The executor starts at most two report sends. *)
Theorem failed_completed_report_is_caught
        (fuel : nat) (cb : callback) (t : task) (s s1 s2 : state)
        (ctx v : value) (e : exn) :
  get_workflow_context fuel (workflowInstanceId t) s = (Return ctx, s1) ->
  cb t ctx = Ok v ->
  truthy v = true ->
  update_task_result (workflowInstanceId t) (taskId t) "COMPLETED" v
                     None None None s1 = (Raise e, s2) ->
  let report_failed :=
    update_task_result (workflowInstanceId t) (taskId t) "FAILED"
                       (VDict [("success", VBool false);
                               ("errMsg", VStr (str e))])
                       None None None in
  wrapper fuel cb t s = (report_failed ;;; del_task (taskId t)) s2
  /\ (forall e' s3, report_failed s2 = (Raise e', s3) ->
                    wrapper fuel cb t s = (Raise e', s3))
  /\ (List.length (posts (log (snd (wrapper fuel cb t s))))
      <= List.length (posts (log s)) + 2)%nat.
Proof.
  intros Hctx Hcb Hv Hupd report_failed.
  assert (Hw : wrapper fuel cb t s
               = (report_failed ;;; del_task (taskId t)) s2).
  { rewrite (@wrapper_truthy _ _ _ _ _ _ _ Hctx Hcb Hv).
    unfold try_except at 1. unfold bind at 1. rewrite Hupd. reflexivity. }
  split; [exact Hw|]. split.
  - intros e' s3 Hf. rewrite Hw. unfold bind. rewrite Hf. reflexivity.
  - rewrite Hw.
    pose proof (get_workflow_context_posts fuel (workflowInstanceId t) s) as P.
    rewrite Hctx in P. simpl in P. destruct P as [_ [_ P]].
    pose proof (update_task_result_frame (workflowInstanceId t) (taskId t)
                  "COMPLETED" v None None None s1) as F1.
    rewrite Hupd in F1. simpl in F1.
    destruct F1 as [_ [_ [_ [l1 [E1 [L1 _]]]]]].
    pose proof (update_task_result_frame (workflowInstanceId t) (taskId t)
                  "FAILED"
                  (VDict [("success", VBool false); ("errMsg", VStr (str e))])
                  None None None s2) as F2.
    fold report_failed in F2. simpl in F2.
    destruct F2 as [T2 [_ [_ [l2 [E2 [L2 _]]]]]].
    assert (Hlog : log (snd ((report_failed ;;; del_task (taskId t)) s2))
                   = log (snd (report_failed s2))).
    { unfold bind. destruct (report_failed s2) as [[[]|e'|] s3]; simpl; auto.
      unfold del_task, bind, get_state.
      destruct (Dict.del (taskId t) (tasks s3)); reflexivity. }
    rewrite Hlog, E2, E1, P, !length_app. lia.
Qed.

(** *** The polling loop *)

Lemma poll_pass_eq (s : state) :
  poll_pass s = for_each (Dict.keys (task_types s)) poll_one s.
Proof. reflexivity. Qed.

Lemma dispatch_eq (task_type : string) (t : task) (s : state) :
  dispatch task_type t s
  = match Dict.get task_type (task_types s) with
    | None => (Raise (KeyError task_type), s)
    | Some _ =>
        (Return tt, {| task_types := task_types s;
                       tasks := Dict.set (taskId t) t (tasks s);
                       log := log s ++ [ThreadStart task_type t] |})
    end.
Proof.
  unfold dispatch, bind, get_state, set_tasks.
  destruct (Dict.get task_type (task_types s)); [|reflexivity].
  rewrite request_eq. reflexivity.
Qed.

(** Dispatching the polled tasks never sleeps, never hangs and leaves the
    handler map alone. *)
Lemma dispatch_frame (task_type : string) (polled : list task) :
  forall s : state,
    let r := for_each polled (dispatch task_type) s in
    fst r <> Diverge /\ task_types (snd r) = task_types s
    /\ exists evs, log (snd r) = log s ++ evs /\ sleeps evs = [].
Proof.
  induction polled as [|t polled IH]; intros s; simpl.
  - split; [discriminate|]. split; [reflexivity|].
    exists []. rewrite app_nil_r. auto.
  - unfold bind. rewrite dispatch_eq.
    destruct (Dict.get task_type (task_types s)) as [cb|].
    + match goal with |- context [for_each polled _ ?s0] =>
        destruct (IH s0) as [D [T [evs [L S]]]] end.
      split; [exact D|]. split; [exact T|].
      exists (ThreadStart task_type t :: evs). rewrite L. simpl.
      rewrite <- app_assoc. split; [reflexivity | exact S].
    + simpl. split; [discriminate|]. split; [reflexivity|].
      exists []. rewrite app_nil_r. auto.
Qed.

Lemma sleep_eq (ms : Z) (s : state) :
  time_sleep ms = Ok tt ->
  sleep ms s = (Return tt, logged s [Sleep ms]).
Proof. intros H. unfold sleep. rewrite H, request_eq. reflexivity. Qed.

(** One task type of a pass: one poll, the dispatches, one sleep. *)
Lemma poll_one_spec (task_type : string) (s : state) :
  time_sleep (poll_interval_ms cfg) = Ok tt ->
  exists s' mid,
    poll_one task_type s = (Return tt, s')
    /\ task_types s' = task_types s
    /\ log s' = log s
                ++ PollBatch task_type (worker_id cfg) 1 :: mid
                ++ [Sleep (poll_interval_ms cfg)]
    /\ sleeps mid = [].
Proof.
  intros Hsleep.
  unfold poll_one, bind at 1, try_except, bind at 1, poll_by_task_type.
  rewrite request_eq.
  destruct (http_poll_batch w (log s) task_type (worker_id cfg) 1)
    as [polled|e].
  - match goal with |- context [for_each polled ?f ?s0] =>
      pose proof (dispatch_frame task_type polled s0) as D;
      destruct (for_each polled f s0) as [[[]|e|] s1] end;
      simpl in D; destruct D as [D [T [evs [L S]]]];
      try (exfalso; apply D; reflexivity).
    + rewrite (sleep_eq _ Hsleep). simpl. do 2 eexists.
      repeat split; eauto.
      simpl. rewrite L, <- !app_assoc. reflexivity.
    + unfold ret. rewrite (sleep_eq _ Hsleep). simpl. do 2 eexists.
      repeat split; eauto. simpl. rewrite L, <- !app_assoc. reflexivity.
  - unfold ret. rewrite (sleep_eq _ Hsleep). simpl.
    exists (logged (logged s [PollBatch task_type (worker_id cfg) 1])
                   [Sleep (poll_interval_ms cfg)]), [].
    repeat split. simpl. rewrite <- app_assoc. reflexivity.
Qed.

Lemma pass_log_sleeps (names : list string) (evs : trace) :
  pass_log names evs ->
  sleeps evs = repeat (poll_interval_ms cfg) (List.length names).
Proof.
  induction 1 as [|ty names mid rest Hmid _ IH]; [reflexivity|].
  simpl. rewrite sleeps_app, Hmid. simpl. rewrite IH. reflexivity.
Qed.

Lemma for_each_poll_one (names : list string) :
  time_sleep (poll_interval_ms cfg) = Ok tt ->
  forall s : state,
  exists s' evs,
    for_each names poll_one s = (Return tt, s')
    /\ task_types s' = task_types s
    /\ log s' = log s ++ evs
    /\ pass_log names evs.
Proof.
  intros Hsleep. induction names as [|ty names IH]; intros s; simpl.
  - exists s, []. rewrite app_nil_r. repeat split. constructor.
  - destruct (poll_one_spec ty s Hsleep) as [s1 [mid [E [T [L S]]]]].
    destruct (IH s1) as [s2 [evs [E2 [T2 [L2 P2]]]]].
    unfold bind. rewrite E, E2. do 2 eexists. repeat split.
    + congruence.
    + rewrite L2, L, <- !app_assoc. simpl. rewrite <- app_assoc. reflexivity.
    + constructor; assumption.
Qed.

Lemma start_polling_spec (turns : nat) :
  time_sleep (poll_interval_ms cfg) = Ok tt ->
  forall s : state,
  exists s',
    start_polling turns s = (Diverge, s')
    /\ task_types s' = task_types s
    /\ sleeps (log s')
       = sleeps (log s)
         ++ repeat (poll_interval_ms cfg)
                   (turns * List.length (Dict.keys (task_types s))).
Proof.
  intros Hsleep. induction turns as [|turns IH]; intros s; simpl.
  - exists s. rewrite app_nil_r. repeat split.
  - unfold bind. rewrite poll_pass_eq.
    destruct (for_each_poll_one (Dict.keys (task_types s)) Hsleep s)
      as [s1 [evs [E [T [L P]]]]].
    rewrite E. destruct (IH s1) as [s2 [E2 [T2 S2]]].
    rewrite E2. exists s2. repeat split; [congruence|].
    rewrite S2, L, sleeps_app, (pass_log_sleeps P), T, <- app_assoc.
    rewrite <- repeat_app. reflexivity.
Qed.

(** C4 (amended).  When [time.sleep] accepts the configured interval (it
    raises for a negative or too large one), a pass of the polling loop over
    the registered task types returns, and its log is one segment per task
    type, in registration order: the poll of that type, the dispatches of
    the polled tasks, then one sleep of the configured interval, whether the
    poll raised or not.  A pass sleeps as many times as there are task
    types, and [turns] passes sleep [turns] times as often. *)
Theorem sleep_follows_each_task_type (s : state) :
  time_sleep (poll_interval_ms cfg) = Ok tt ->
  (exists s' evs,
     poll_pass s = (Return tt, s')
     /\ log s' = log s ++ evs
     /\ pass_log (Dict.keys (task_types s)) evs
     /\ sleeps (log s')
        = sleeps (log s)
          ++ repeat (poll_interval_ms cfg)
                    (List.length (Dict.keys (task_types s))))
  /\ forall turns : nat,
       sleeps (log (snd (start_polling turns s)))
       = sleeps (log s)
         ++ repeat (poll_interval_ms cfg)
                   (turns * List.length (Dict.keys (task_types s))).
Proof.
  intros Hsleep. split.
  - rewrite poll_pass_eq.
    destruct (for_each_poll_one (Dict.keys (task_types s)) Hsleep s)
      as [s1 [evs [E [T [L P]]]]].
    exists s1, evs. repeat split; auto.
    rewrite L, sleeps_app, (pass_log_sleeps P). reflexivity.
  - intros turns.
    destruct (start_polling_spec turns Hsleep s) as [s' [E [_ S]]].
    rewrite E. exact S.
Qed.

(** *** Restart recovery *)

Lemma fail_one_tasks (task_id : string) (s : state) :
  tasks (snd (fail_one task_id s)) = tasks s.
Proof.
  unfold fail_one, bind, get_state.
  destruct (Dict.get task_id (tasks s)) as [t|]; [|reflexivity].
  apply update_task_result_frame.
Qed.

Lemma for_each_fail_one_tasks (ids : list string) :
  forall s : state, tasks (snd (for_each ids fail_one s)) = tasks s.
Proof.
  induction ids as [|tid ids IH]; intros s; simpl; [reflexivity|].
  unfold bind. pose proof (fail_one_tasks tid s) as H.
  destruct (fail_one tid s) as [[[]|e|] s1]; simpl in *; auto.
  rewrite IH. exact H.
Qed.

Lemma for_each_fail_one_posts (registry : dict task) (ids : list string) :
  (forall h b, http_post_task w h b = Ok tt) ->
  exceeds_threshold (json_dumps_utf8 restart_output) = false ->
  (forall tid, In tid ids -> In tid (Dict.keys registry)) ->
  forall s : state,
    tasks s = registry ->
    exists s' bs,
      for_each ids fail_one s = (Return tt, s')
      /\ posts (log s') = posts (log s) ++ bs
      /\ Forall2 (restart_report registry) ids bs.
Proof.
  intros Hpost Hsmall. induction ids as [|tid ids IH]; intros Hin s Hs; simpl.
  - exists s, []. rewrite app_nil_r. repeat split. constructor.
  - destruct (@get_in_keys _ tid registry) as [t Ht]; [apply Hin; left; auto|].
    unfold bind. unfold fail_one at 1, bind, get_state. rewrite Hs, Ht.
    rewrite update_task_result_cases by reflexivity.
    cbn [truthy restart_output]. fold restart_output. rewrite Hsmall.
    rewrite post_task_eq, Hpost.
    match goal with |- context [for_each ids fail_one ?s0] =>
      destruct (IH (fun x H => Hin x (or_intror H)) s0 Hs)
        as [s' [bs [E [P F]]]] end.
    rewrite E. do 2 eexists. split; [reflexivity|]. split.
    + rewrite P. simpl. rewrite posts_app, <- app_assoc. reflexivity.
    + constructor; [|exact F].
      unfold restart_report. simpl. repeat split.
      exists t. auto.
Qed.

(** C10.  [set_all_tasks_to_failed_state] leaves the in-flight registry as
    it found it, whatever happens to the reports.  When the POSTs return and
    the restart payload is within the size threshold, it returns after
    posting one report per registry entry, in registry order: status FAILED,
    the restart reason under [errMsg] of the inline [outputData], and no
    [reasonForIncompletion] key. *)
Theorem restart_reports_and_keeps_registry (s : state) :
  tasks (snd (set_all_tasks_to_failed_state s)) = tasks s
  /\ ((forall h b, http_post_task w h b = Ok tt) ->
      exceeds_threshold (json_dumps_utf8 restart_output) = false ->
      exists s' bs,
        set_all_tasks_to_failed_state s = (Return tt, s')
        /\ tasks s' = tasks s
        /\ posts (log s') = posts (log s) ++ bs
        /\ Forall2 (restart_report (tasks s)) (Dict.keys (tasks s)) bs).
Proof.
  assert (Heq : set_all_tasks_to_failed_state s
                = for_each (Dict.keys (tasks s)) fail_one s) by reflexivity.
  rewrite Heq. split.
  - apply for_each_fail_one_tasks.
  - intros Hpost Hsmall.
    destruct (@for_each_fail_one_posts (tasks s) (Dict.keys (tasks s))
                Hpost Hsmall (fun _ H => H) s eq_refl) as [s' [bs [E [P F]]]].
    exists s', bs. split; [exact E|]. split; [|split; assumption].
    pose proof (for_each_fail_one_tasks (Dict.keys (tasks s)) s) as T.
    rewrite E in T. exact T.
Qed.

(** *** Further properties of the reporter and the executor *)

(** X1.  Whatever its arguments and whatever the world answers, the
    reporter leaves the in-flight registry and the handler map alone, ends
    (returns or raises), and posts at most one report.  A handler that
    reports by itself therefore leaves its task in the registry. *)
Theorem report_never_touches_registry
        (wid tid status : string) (od : value) (reason : option string)
        (after : option Z) (worker : option string) (s : state) :
  let r := update_task_result wid tid status od reason after worker s in
  tasks (snd r) = tasks s
  /\ task_types (snd r) = task_types s
  /\ fst r <> Diverge
  /\ (List.length (posts (log (snd r))) <= List.length (posts (log s)) + 1)%nat
  /\ (fst r = Return tt ->
      List.length (posts (log (snd r))) = (List.length (posts (log s)) + 1)%nat).
Proof.
  intros r.
  destruct (update_task_result_frame wid tid status od reason after worker s)
    as [T [Ty [D [l [E [L R]]]]]].
  fold r in T, Ty, D, E, R.
  split; [exact T|]. split; [exact Ty|]. split; [exact D|].
  rewrite E, length_app. split; [lia|].
  intros H. destruct (R H) as [b ->]. reflexivity.
Qed.

(** X2.  The optional arguments of a report are sent only when truthy: an
    empty reason and a callback delay of 0 are dropped like [None], and an
    empty worker id override falls back to the configured worker id.  This
    holds for every body the reporter posts. *)
Theorem falsy_optional_fields_are_dropped
        (wid tid status : string) (od : value) (reason : option string)
        (after : option Z) (worker : option string) (s : state) (b : report) :
  In b (posts (log (snd (update_task_result wid tid status od reason after
                                            worker s)))) ->
  In b (posts (log s))
  \/ (r_reasonForIncompletion b
      = match reason with
        | Some EmptyString | None => None
        | Some msg => Some msg
        end
      /\ r_callbackAfterSeconds b
         = match after with
           | Some 0 | None => None
           | Some n => Some n
           end
      /\ r_workerId b
         = match worker with
           | Some EmptyString | None => worker_id cfg
           | Some wk => wk
           end
      /\ r_workflowInstanceId b = wid /\ r_taskId b = tid
      /\ r_status b = status).
Proof.
  assert (Hbody : forall o p,
             let b := report_body wid tid status o p reason after worker in
             r_reasonForIncompletion b
             = match reason with
               | Some EmptyString | None => None
               | Some msg => Some msg
               end
             /\ r_callbackAfterSeconds b
                = match after with
                  | Some 0 | None => None
                  | Some n => Some n
                  end
             /\ r_workerId b
                = match worker with
                  | Some EmptyString | None => worker_id cfg
                  | Some wk => wk
                  end
             /\ r_workflowInstanceId b = wid /\ r_taskId b = tid
             /\ r_status b = status).
  { intros o p. simpl. repeat split.
    - destruct reason as [[|c m]|]; reflexivity.
    - destruct after as [[|n|n]|]; reflexivity.
    - destruct worker as [[|c m]|]; reflexivity. }
  destruct (valid_status status) eqn:Hv.
  - rewrite update_task_result_cases by exact Hv.
    destruct (truthy od);
      [destruct (exceeds_threshold (json_dumps_utf8 od));
       [destruct (external_storage cfg) as [oss|];
        [destruct (oss (log s) (storage_key tid) (json_dumps_utf8 od))|]|]|];
      rewrite ?post_task_eq; simpl; rewrite ?posts_app; simpl;
      rewrite ?app_nil_r; intros Hin; try (left; exact Hin).
    all: apply in_app_or in Hin; destruct Hin as [Hin|Hin];
      [left; exact Hin|].
    all: destruct Hin as [<-|[]]; right; apply Hbody.
  - unfold update_task_result. rewrite Hv. simpl. intros Hin. left. exact Hin.
Qed.

(** X3.  A task that is not in the in-flight registry when its handler
    returns a truthy result is reported twice: the COMPLETED report is
    posted, the removal raises [KeyError] inside the [try] block, the
    [except] block posts a FAILED report with that error, and its own
    removal raises [KeyError] out of the executor. *)
Theorem absent_task_is_reported_twice
        (fuel : nat) (cb : callback) (t : task) (s s1 s2 s3 : state)
        (ctx v : value) :
  get_workflow_context fuel (workflowInstanceId t) s = (Return ctx, s1) ->
  cb t ctx = Ok v ->
  truthy v = true ->
  Dict.mem (taskId t) (tasks s) = false ->
  update_task_result (workflowInstanceId t) (taskId t) "COMPLETED" v
                     None None None s1 = (Return tt, s2) ->
  update_task_result (workflowInstanceId t) (taskId t) "FAILED"
                     (VDict [("success", VBool false);
                             ("errMsg", VStr (repr (taskId t)))])
                     None None None s2 = (Return tt, s3) ->
  wrapper fuel cb t s = (Raise (KeyError (taskId t)), s3)
  /\ tasks s3 = tasks s
  /\ map r_status (posts (log s3))
     = map r_status (posts (log s)) ++ ["COMPLETED"; "FAILED"]%string.
Proof.
  intros Hctx Hcb Hv Hmem Hc Hf.
  pose proof (get_workflow_context_posts fuel (workflowInstanceId t) s) as P.
  rewrite Hctx in P. simpl in P. destruct P as [T1 [_ P1]].
  destruct (@update_task_result_returned
              _ _ "COMPLETED" _ _ _ eq_refl Hv Hc) as [T2 [_ P2]].
  destruct (@update_task_result_returned
              _ _ "FAILED" (VDict [("success", VBool false);
                                   ("errMsg", VStr (repr (taskId t)))])
              _ _ eq_refl eq_refl Hf) as [T3 [_ P3]].
  assert (Hdel : forall s', tasks s' = tasks s ->
                            del_task (taskId t) s' = (Raise (KeyError (taskId t)), s')).
  { intros s' Hs'. unfold del_task, bind, get_state, Dict.del.
    rewrite Hs', Hmem. reflexivity. }
  split; [|split].
  - rewrite (@wrapper_truthy _ _ _ _ _ _ _ Hctx Hcb Hv).
    unfold try_except, bind. rewrite Hc.
    rewrite Hdel by congruence.
    unfold wrapper_except, bind, failure_output. simpl str. rewrite Hf.
    apply Hdel. congruence.
  - congruence.
  - rewrite P3, P2, P1, !map_app. simpl. rewrite <- app_assoc. reflexivity.
Qed.

Lemma logged_nil (s : state) : logged s [] = s.
Proof. destruct s. unfold logged. simpl. rewrite app_nil_r. reflexivity. Qed.

Lemma polls_app (tr1 tr2 : trace) : polls (tr1 ++ tr2) = polls tr1 ++ polls tr2.
Proof.
  induction tr1 as [|ev tr1 IH]; simpl; [reflexivity|].
  destruct ev; simpl; rewrite ?IH; reflexivity.
Qed.

Lemma polls_thread_starts (task_type : string) (ts : list task) :
  polls (map (ThreadStart task_type) ts) = [].
Proof. induction ts as [|t ts IH]; simpl; auto. Qed.

(** The walk up a parent chain that never reaches a root uses up any
    fuel. *)
Lemma get_real_id_endless (P : string -> Prop) :
  (forall x, P x -> exists y, P y /\ has_parent x y) ->
  forall (fuel : nat) (wid : string) (s : state),
    P wid ->
    exists ids,
      get_real_workflow_instance_id_start_by_server fuel wid s
      = (Diverge, logged s (map GetWorkflow ids))
      /\ List.length ids = fuel.
Proof.
  intros Hclosed. induction fuel as [|fuel IH]; intros wid s Hwid.
  - exists []. simpl. unfold diverge. rewrite logged_nil. auto.
  - destruct (Hclosed wid Hwid) as [p [Hp [Hne Hget]]].
    destruct (IH p (logged s [GetWorkflow wid]) Hp) as [ids [E L]].
    exists (wid :: ids). simpl. unfold bind.
    rewrite request_eq, Hget. apply String.eqb_neq in Hne. rewrite Hne.
    simpl. rewrite E, logged_logged. simpl.
    split; [reflexivity | lia].
Qed.

(** X4.  There is no cycle guard: when the workflow of a task lies in a
    set of workflows each of which has a parent in the set (a parent
    cycle, for one), context resolution never ends.  For every amount of
    fuel the executor is still looking parents up, one request per unit of
    fuel; it has read no cache entry, posted no report and left the task in
    the registry. *)
Theorem parent_cycle_never_resolves
        (P : string -> Prop) (fuel : nat) (cb : callback) (t : task)
        (s : state) :
  (forall x, P x -> exists y, P y /\ has_parent x y) ->
  P (workflowInstanceId t) ->
  let r := wrapper fuel cb t s in
  fst r = Diverge
  /\ tasks (snd r) = tasks s
  /\ posts (log (snd r)) = posts (log s)
  /\ cache_reads (log (snd r)) = cache_reads (log s)
  /\ List.length (log (snd r)) = (List.length (log s) + fuel)%nat.
Proof.
  intros Hclosed Hwid r.
  destruct (@get_real_id_endless P Hclosed fuel (workflowInstanceId t) s Hwid)
    as [ids [E L]].
  assert (Hr : r = (Diverge, logged s (map GetWorkflow ids))).
  { subst r. unfold wrapper, try_except, bind, get_workflow_context, bind.
    rewrite E. reflexivity. }
  destruct (lookups_only ids) as [Hp Hc].
  rewrite Hr. simpl. split; [reflexivity|]. split; [reflexivity|].
  rewrite posts_app, cache_reads_app, Hp, Hc, !app_nil_r.
  split; [reflexivity|]. split; [reflexivity|].
  rewrite length_app, length_map, L. reflexivity.
Qed.

(** Dispatching the tasks polled for a registered task type enters each of
    them in the registry and starts its thread. *)
Lemma dispatch_all (task_type : string) (cb : callback) (polled : list task) :
  forall s : state,
    Dict.get task_type (task_types s) = Some cb ->
    for_each polled (dispatch task_type) s
    = (Return tt,
       {| task_types := task_types s;
          tasks := entered polled (tasks s);
          log := log s ++ map (ThreadStart task_type) polled |}).
Proof.
  induction polled as [|t polled IH]; intros s Hcb; simpl.
  - rewrite app_nil_r. destruct s; reflexivity.
  - unfold bind. rewrite dispatch_eq, Hcb. rewrite IH by exact Hcb.
    simpl. rewrite <- app_assoc. reflexivity.
Qed.

Lemma mem_set_other {V} (k k' : string) (v : V) (d : dict V) :
  Dict.mem k d = true -> Dict.mem k (Dict.set k' v d) = true.
Proof.
  unfold Dict.mem. induction d as [|[k0 v0] d IH]; simpl.
  - discriminate.
  - destruct (k' =? k0)%string eqn:E'; simpl.
    + apply String.eqb_eq in E'. subst.
      destruct (k =? k0)%string; auto.
    + destruct (k =? k0)%string; auto.
Qed.

Lemma mem_entered (polled : list task) :
  forall (registry : dict task) (k : string),
    Dict.mem k registry = true \/ In k (map taskId polled) ->
    Dict.mem k (entered polled registry) = true.
Proof.
  unfold entered.
  induction polled as [|t polled IH]; intros registry k H; simpl.
  - destruct H as [H|[]]. exact H.
  - apply IH. destruct H as [H|[H|H]].
    + left. apply mem_set_other. exact H.
    + left. subst. apply mem_set_same.
    + right. exact H.
Qed.

(** X5.  What the body of the polling loop does by itself (the threads it
    starts are not part of this run) for a registered task type whose poll
    answers with tasks, when [time.sleep] accepts the interval: it writes
    each polled task into the in-flight registry under its task id, a later
    task with the same id replacing an earlier one, starts one thread per
    task in the order polled, sleeps once and returns.  The registry it
    leaves is the one it found with these writes applied; the handler map is
    unchanged. *)
Theorem polled_tasks_enter_registry
        (task_type : string) (cb : callback) (polled : list task)
        (s : state) :
  Dict.get task_type (task_types s) = Some cb ->
  http_poll_batch w (log s) task_type (worker_id cfg) 1 = Ok polled ->
  time_sleep (poll_interval_ms cfg) = Ok tt ->
  poll_one task_type s
  = (Return tt,
     {| task_types := task_types s;
        tasks := fold_left (fun d t => Dict.set (taskId t) t d)
                           polled (tasks s);
        log := log s
               ++ PollBatch task_type (worker_id cfg) 1
               :: map (ThreadStart task_type) polled
               ++ [Sleep (poll_interval_ms cfg)] |}).
Proof.
  intros Hcb Hpoll Hsleep.
  unfold poll_one, bind at 1, try_except, bind at 1, poll_by_task_type.
  rewrite request_eq, Hpoll.
  rewrite (@dispatch_all task_type cb) by exact Hcb.
  rewrite (sleep_eq _ Hsleep). unfold logged, entered. simpl.
  rewrite <- !app_assoc. reflexivity.
Qed.

(** What dispatching the polled tasks logs: no poll, no sleep. *)
Lemma dispatch_log (task_type : string) (polled : list task) :
  forall s0 : state,
  exists evs,
    log (snd (for_each polled (dispatch task_type) s0)) = log s0 ++ evs
    /\ polls evs = [] /\ sleeps evs = []
    /\ task_types (snd (for_each polled (dispatch task_type) s0))
       = task_types s0
    /\ fst (for_each polled (dispatch task_type) s0) <> Diverge.
Proof.
  induction polled as [|t polled IH]; intros s0; simpl.
  - exists []. rewrite app_nil_r. repeat split. discriminate.
  - unfold bind. rewrite dispatch_eq.
    destruct (Dict.get task_type (task_types s0)).
    + match goal with |- context [for_each polled _ ?s1] =>
        destruct (IH s1) as [evs [L [Pn [Sn [T D]]]]] end.
      exists (ThreadStart task_type t :: evs). rewrite L. simpl.
      rewrite <- app_assoc. repeat split; auto.
    + exists []. simpl. rewrite app_nil_r. repeat split. discriminate.
Qed.

(** What the [try] block of one task type does, whatever the poll
    answers: it polls once, never sleeps, and its exceptions are dropped. *)
Lemma poll_try_block (task_type : string) (s : state) :
  exists s1 evs,
    try_except
      (polled <- poll_by_task_type task_type (worker_id cfg) 1 ;;
       for_each polled (dispatch task_type))
      (fun _ => ret tt) s = (Return tt, s1)
    /\ task_types s1 = task_types s
    /\ log s1 = log s ++ PollBatch task_type (worker_id cfg) 1 :: evs
    /\ polls evs = [] /\ sleeps evs = [].
Proof.
  unfold try_except, bind at 1, poll_by_task_type. rewrite request_eq.
  destruct (http_poll_batch w (log s) task_type (worker_id cfg) 1)
    as [polled|e].
  - match goal with |- context [for_each polled ?f ?s0] =>
      destruct (dispatch_log task_type polled s0) as [evs [L [Pn [Sn [T D]]]]];
      destruct (for_each polled f s0) as [[[]|e|] s1] end;
      simpl in L, T, D; try (exfalso; apply D; reflexivity);
      exists s1, evs; unfold ret; rewrite L, T; simpl;
      rewrite <- app_assoc; repeat split; assumption.
  - unfold ret. eexists. exists []. simpl. repeat split.
Qed.

(** What one task type of a pass logs, whatever the poll answers. *)
Lemma poll_one_polls (task_type : string) (s : state) :
  time_sleep (poll_interval_ms cfg) = Ok tt ->
  exists s',
    poll_one task_type s = (Return tt, s')
    /\ task_types s' = task_types s
    /\ polls (log s') = polls (log s) ++ [task_type].
Proof.
  intros Hsleep.
  destruct (poll_try_block task_type s) as [s1 [evs [E [T [L [Pn _]]]]]].
  unfold poll_one, bind at 1. rewrite E, (sleep_eq _ Hsleep).
  eexists. split; [reflexivity|]. split; [exact T|].
  simpl. rewrite L, !polls_app. simpl. rewrite Pn. simpl.
  rewrite app_nil_r. reflexivity.
Qed.

(** X6.  When [time.sleep] accepts the configured interval, a pass of the
    polling loop returns and polls every registered task type exactly once,
    in registration order: a poll that raises, or a dispatch that raises, is
    dropped and the next task type is polled all the same. *)
Theorem pass_polls_every_task_type (s : state) :
  time_sleep (poll_interval_ms cfg) = Ok tt ->
  fst (poll_pass s) = Return tt
  /\ task_types (snd (poll_pass s)) = task_types s
  /\ polls (log (snd (poll_pass s)))
     = polls (log s) ++ Dict.keys (task_types s).
Proof.
  intros Hsleep.
  rewrite poll_pass_eq. generalize (Dict.keys (task_types s)) as names.
  intros names. revert s.
  induction names as [|ty names IH]; intros s; simpl.
  - rewrite app_nil_r. auto.
  - destruct (poll_one_polls ty s Hsleep) as [s1 [E [T Pn]]].
    unfold bind. rewrite E. destruct (IH s1) as [R [T' Pn']].
    split; [exact R|]. split; [congruence|].
    rewrite Pn', Pn, <- app_assoc. reflexivity.
Qed.

(** X20.  The sleep is outside the [try] block: when [time.sleep] rejects
    the configured interval (a negative one, say) and a task type is
    registered, [start_polling] ends with that exception in its first turn,
    right after the poll of the first task type; no other task type is
    polled and no sleep is taken. *)
Theorem rejected_sleep_ends_polling
        (name : string) (cb : callback) (rest : dict callback) (e : exn)
        (turns : nat) (s : state) :
  task_types s = (name, cb) :: rest ->
  time_sleep (poll_interval_ms cfg) = Err e ->
  let r := start_polling (S turns) s in
  fst r = Raise e
  /\ polls (log (snd r)) = polls (log s) ++ [name]
  /\ sleeps (log (snd r)) = sleeps (log s).
Proof.
  intros Hty Hsleep r. subst r.
  destruct (poll_try_block name s) as [s1 [evs [E [_ [L [Pn Sn]]]]]].
  assert (E1 : poll_one name s = (Raise e, s1)).
  { unfold poll_one, bind at 1. rewrite E. unfold sleep. rewrite Hsleep.
    reflexivity. }
  assert (E2 : poll_pass s = (Raise e, s1)).
  { rewrite poll_pass_eq, Hty. simpl. unfold bind at 1. rewrite E1.
    reflexivity. }
  assert (E3 : start_polling (S turns) s = (Raise e, s1)).
  { simpl. unfold bind at 1. rewrite E2. reflexivity. }
  rewrite E3. simpl. split; [reflexivity|].
  rewrite L, polls_app, sleeps_app. simpl. rewrite Pn, Sn, app_nil_r.
  split; reflexivity.
Qed.

(** X7.  Restart recovery is not resumed after a failure: when the report
    for the first registry entry raises (the orchestrator is out of reach,
    say), [set_all_tasks_to_failed_state] raises the same exception at
    once, and no report is attempted for the entries that follow. *)
Theorem restart_stops_at_first_failure
        (tid : string) (t : task) (rest : dict task) (e : exn)
        (s s1 : state) :
  tasks s = (tid, t) :: rest ->
  update_task_result (workflowInstanceId t) tid "FAILED" restart_output
                     None None None s = (Raise e, s1) ->
  set_all_tasks_to_failed_state s = (Raise e, s1)
  /\ tasks s1 = tasks s
  /\ (List.length (posts (log s1)) <= List.length (posts (log s)) + 1)%nat.
Proof.
  intros Ht Hu.
  pose proof (update_task_result_frame (workflowInstanceId t) tid "FAILED"
                restart_output None None None s) as F.
  rewrite Hu in F. simpl in F. destruct F as [T [_ [_ [l [E [L _]]]]]].
  split; [|split; [exact T | rewrite E, length_app; lia]].
  unfold set_all_tasks_to_failed_state, bind at 1, get_state at 1.
  rewrite Ht. simpl. unfold bind at 1. unfold fail_one at 1.
  unfold bind, get_state. rewrite Ht. simpl. rewrite String.eqb_refl.
  rewrite Hu. reflexivity.
Qed.

Lemma append_injective (p a b : string) :
  (p ++ a)%string = (p ++ b)%string -> a = b.
Proof.
  induction p as [|c p IH]; simpl; intros H; [exact H|].
  inversion H. apply IH. assumption.
Qed.

Lemma handler_name_injective (n1 n2 : string) :
  handler_name n1 = handler_name n2 -> n1 = n2.
Proof.
  unfold handler_name. destruct (worker_name_prefix cfg) as [p|]; auto.
  destruct (truthy_str (Some p)); auto. apply append_injective.
Qed.

Lemma get_set_other {V} (k k' : string) (v : V) (d : dict V) :
  k <> k' -> Dict.get k (Dict.set k' v d) = Dict.get k d.
Proof.
  intros Hne. apply String.eqb_neq in Hne.
  induction d as [|[k0 v0] d IH]; simpl.
  - rewrite Hne. reflexivity.
  - destruct (k' =? k0)%string eqn:E'; simpl.
    + apply String.eqb_eq in E'. subst. rewrite Hne. reflexivity.
    + destruct (k =? k0)%string; auto.
Qed.

(** X8.  Handlers bound under different names never collide, with or
    without a worker-name prefix: binding [name2] leaves the handler bound
    under [name1] as it was, and only adds or replaces the key of
    [name2]. *)
Theorem distinct_names_do_not_collide
        (name1 name2 : string) (cb : callback) (s : state) :
  name1 <> name2 ->
  let s' := snd (register_handler name2 cb s) in
  handler_name name1 <> handler_name name2
  /\ Dict.get (handler_name name1) (task_types s')
     = Dict.get (handler_name name1) (task_types s)
  /\ Dict.get (handler_name name2) (task_types s') = Some cb
  /\ tasks s' = tasks s /\ log s' = log s.
Proof.
  intros Hne s'.
  assert (Hk : handler_name name1 <> handler_name name2).
  { intros H. apply Hne. apply handler_name_injective. exact H. }
  subst s'. unfold register_handler, bind, get_state, set_task_types. simpl.
  split; [exact Hk|]. split; [apply get_set_other; exact Hk|].
  split; [apply get_set_same|]. split; reflexivity.
Qed.

(** X9.  Without a blob store (the default), a result above the size
    threshold cannot be reported as COMPLETED: the upload raises
    [AttributeError] inside the [try] block before anything is sent, and
    the executor reports the task FAILED with that message (the failure
    payload being within the threshold) and removes it from the
    registry. *)
Theorem oversized_result_without_storage_fails_task
        (fuel : nat) (cb : callback) (t : task) (s s1 s2 : state)
        (ctx v : value) :
  let e := AttributeError
             "'NoneType' object has no attribute 'upload_bytes'" in
  external_storage cfg = None ->
  get_workflow_context fuel (workflowInstanceId t) s = (Return ctx, s1) ->
  cb t ctx = Ok v ->
  truthy v = true ->
  exceeds_threshold (json_dumps_utf8 v) = true ->
  exceeds_threshold (json_dumps_utf8 (failure_output e)) = false ->
  Dict.mem (taskId t) (tasks s) = true ->
  update_task_result (workflowInstanceId t) (taskId t) "FAILED"
                     (failure_output e) None None None s1 = (Return tt, s2) ->
  wrapper fuel cb t s
  = (Return tt, {| task_types := task_types s;
                   tasks := Dict.remove (taskId t) (tasks s);
                   log := log s2 |})
  /\ exists b,
       posts (log s2) = posts (log s) ++ [b]
       /\ r_status b = "FAILED"%string
       /\ r_taskId b = taskId t
       /\ r_outputData b
          = Some (VDict [("success", VBool false);
                         ("errMsg",
                          VStr "'NoneType' object has no attribute 'upload_bytes'")])
       /\ r_externalOutputPayloadStoragePath b = None.
Proof.
  intros e Hoss Hctx Hcb Hv Hbig Hsmall Hmem Hf.
  pose proof (get_workflow_context_posts fuel (workflowInstanceId t) s) as P.
  rewrite Hctx in P. simpl in P. destruct P as [T1 [Ty1 P1]].
  destruct (@update_task_result_returned
              _ _ "FAILED" (failure_output e) _ _ eq_refl eq_refl Hf)
    as [T2 [Ty2 P2]].
  rewrite Hsmall in P2.
  split.
  - rewrite (@wrapper_truthy _ _ _ _ _ _ _ Hctx Hcb Hv).
    unfold try_except, bind at 1.
    rewrite update_task_result_cases by reflexivity.
    rewrite Hv, Hbig, Hoss.
    unfold wrapper_except, bind. fold e. rewrite Hf.
    rewrite del_task_present by (rewrite T2, T1; exact Hmem).
    rewrite T2, T1, Ty2, Ty1. reflexivity.
  - eexists. split; [rewrite P2, P1; reflexivity|]. simpl. repeat split.
Qed.

Lemma remove_set_absent {V} (k : string) (v : V) (d : dict V) :
  Dict.mem k d = false -> Dict.remove k (Dict.set k v d) = d.
Proof.
  unfold Dict.mem, Dict.remove.
  induction d as [|[k0 v0] d IH]; simpl.
  - intros _. rewrite String.eqb_refl. reflexivity.
  - destruct (k =? k0)%string eqn:E; [discriminate|].
    intros H. simpl. rewrite E. simpl. rewrite IH by exact H. reflexivity.
Qed.

(** X10.  Dispatch and a synchronous completion cancel out on the
    registry: a polled task whose id is not in flight is entered by the
    dispatch, and when its handler returns a truthy result and the
    COMPLETED report returns, the executor leaves the registry exactly as
    it was before the dispatch. *)
Theorem dispatch_then_complete_restores_registry
        (fuel : nat) (task_type : string) (cb : callback) (t : task)
        (s s1 s2 : state) (ctx v : value) :
  let sd := {| task_types := task_types s;
               tasks := Dict.set (taskId t) t (tasks s);
               log := log s ++ [ThreadStart task_type t] |} in
  Dict.get task_type (task_types s) = Some cb ->
  Dict.mem (taskId t) (tasks s) = false ->
  get_workflow_context fuel (workflowInstanceId t) sd = (Return ctx, s1) ->
  cb t ctx = Ok v ->
  truthy v = true ->
  update_task_result (workflowInstanceId t) (taskId t) "COMPLETED" v
                     None None None s1 = (Return tt, s2) ->
  dispatch task_type t s = (Return tt, sd)
  /\ Dict.get (taskId t) (tasks sd) = Some t
  /\ wrapper fuel cb t sd
     = (Return tt, {| task_types := task_types s;
                      tasks := tasks s;
                      log := log s2 |}).
Proof.
  intros sd Hty Hmem Hctx Hcb Hv Hu.
  pose proof (get_workflow_context_posts fuel (workflowInstanceId t) sd) as P.
  rewrite Hctx in P. simpl in P. destruct P as [T1 [Ty1 _]].
  destruct (@update_task_result_returned
              _ _ "COMPLETED" v _ _ eq_refl Hv Hu) as [T2 [Ty2 _]].
  split; [rewrite dispatch_eq, Hty; reflexivity|].
  split; [apply get_set_same|].
  rewrite (@wrapper_truthy _ _ _ _ _ _ _ Hctx Hcb Hv).
  unfold try_except, bind. rewrite Hu.
  rewrite del_task_present
    by (rewrite T2, T1; simpl; apply mem_set_same).
  rewrite T2, T1, Ty2, Ty1. simpl.
  rewrite remove_set_absent by exact Hmem. reflexivity.
Qed.

End Client.

(** ** The theorems at work on the samples *)

Local Abbreviation py_update := (update_task_result Runtime.json_dumps_utf8).
Local Abbreviation py_context := (get_workflow_context Runtime.json_loads).
Local Abbreviation py_wrapper :=
  (wrapper Runtime.json_dumps_utf8 Runtime.json_loads Runtime.repr).

(** Reporting RUNNING for t1 raises at once; nothing is logged. *)
Lemma invalid_status_raises_before_io_witness :
  py_update Sample.cfg Sample.online "w1" "t1" "RUNNING"
            (VDict [("width", VInt 100)]) None None None
            (Sample.in_flight [Sample.t1])
  = (Raise (Exception "status must be COMPLETED or FAILED"),
     Sample.in_flight [Sample.t1]).
Proof.
  apply invalid_status_raises_before_io; discriminate.
Defined.

Lemma sample_w1_is_root : has_no_parent Sample.online "w1".
Proof. intros h. exists None. split; reflexivity. Qed.

Lemma sample_w3_is_root : has_no_parent Sample.online "w3".
Proof. intros h. exists None. split; reflexivity. Qed.

(** The context of the sub-workflow w2 is the one cached for w1. *)
Lemma context_is_cached_under_root_witness :
  py_context Sample.online 2 "w2" (Sample.in_flight [])
  = (Return (VDict []),
     logged (Sample.in_flight [])
            [GetWorkflow "w2"; GetWorkflow "w1";
             RedisGet "workflow:context:w1"]).
Proof.
  apply (@context_is_cached_under_root
           Runtime.json_loads Sample.online "w2" ["w1"] "w1" "{}"
           (VDict []) 2 (Sample.in_flight [])).
  - apply chain_parent.
    + split; [discriminate | intros h; reflexivity].
    + apply chain_root. exact sample_w1_is_root.
  - intros h. reflexivity.
  - reflexivity.
  - simpl. lia.
Defined.

(** Task t5 belongs to w5, a sub-workflow of w3, which has no cached
    context: two lookups, one cache read under the key of w3, then the
    FAILED report, which names w3. *)
Lemma missing_context_fails_task_witness :
  exists b,
    log (snd (py_wrapper Sample.cfg Sample.nested 2 Sample.resize_image
                         Sample.t5 (Sample.in_flight [Sample.t5])))
    = [GetWorkflow "w5"; GetWorkflow "w3"; RedisGet "workflow:context:w3";
       PostTask b]
    /\ r_status b = "FAILED"%string
    /\ r_taskId b = "t5"%string
    /\ r_outputData b
       = Some (VDict [("success", VBool false);
                      ("errMsg",
                       VStr "无法获取 workflow context for workflowInstanceId=w3")]).
Proof.
  destruct (@missing_context_fails_task
              Runtime.json_dumps_utf8 Runtime.json_loads Runtime.repr
              Sample.cfg Sample.nested "w5" ["w3"] "w3" 2
              Sample.resize_image Sample.t5
              (Sample.in_flight [Sample.t5]))
    as [_ [_ [_ H]]].
  - apply chain_parent.
    + split; [discriminate | intros h; reflexivity].
    + apply chain_root. intros h. exists None. split; reflexivity.
  - intros h. reflexivity.
  - reflexivity.
  - simpl. lia.
  - destruct H as [b [Hlog Hb]]; [vm_compute; reflexivity|].
    exists b. split; [exact Hlog | exact Hb].
Defined.

(** A handler that returns [{}] for t1: no report, t1 stays in flight. *)
Lemma falsy_result_is_deferred_witness :
  let r := py_wrapper Sample.cfg Sample.online 1 Sample.empty_result
                      Sample.t1 (Sample.in_flight [Sample.t1]) in
  fst r = Return tt
  /\ tasks (snd r) = [("t1"%string, Sample.t1)]
  /\ posts (log (snd r)) = [].
Proof.
  destruct (@falsy_result_is_deferred
              Runtime.json_dumps_utf8 Runtime.json_loads Runtime.repr
              Sample.cfg Sample.online 1 Sample.empty_result Sample.t1
              (Sample.in_flight [Sample.t1])
              (logged (Sample.in_flight [Sample.t1])
                      [GetWorkflow "w1"; RedisGet "workflow:context:w1"])
              (VDict []) (VDict []))
    as [Hw [Ht [Hp _]]].
  - reflexivity.
  - reflexivity.
  - reflexivity.
  - cbv zeta. rewrite Hw. simpl fst. simpl snd.
    split; [reflexivity|]. split; [exact Ht | exact Hp].
Defined.

(** The scenario of the synchronous path: the handler of resize_image
    returns [{"width": 100}] for t1, and one COMPLETED report carries it. *)
Lemma one_terminal_report_witness :
  let r := py_wrapper Sample.cfg Sample.online 1 Sample.resize_image
                      Sample.t1 (Sample.in_flight [Sample.t1]) in
  fst r = Return tt
  /\ tasks (snd r) = []
  /\ exists b,
       posts (log (snd r)) = [b]
       /\ r_status b = "COMPLETED"%string
       /\ r_taskId b = "t1"%string
       /\ r_outputData b = Some (VDict [("width", VInt 100)])
       /\ r_externalOutputPayloadStoragePath b = None.
Proof.
  pose (s := Sample.in_flight [Sample.t1]).
  pose (s1 := logged s [GetWorkflow "w1"; RedisGet "workflow:context:w1"]).
  pose (s2 := snd (py_update Sample.cfg Sample.online "w1" "t1" "COMPLETED"
                             (VDict [("width", VInt 100)]) None None None s1)).
  destruct (@one_terminal_report
              Runtime.json_dumps_utf8 Runtime.json_loads Runtime.repr
              Sample.cfg Sample.online 1 Sample.resize_image Sample.t1
              s s1 s2 "COMPLETED" (VDict [("width", VInt 100)]))
    as [Hw [_ [b [Hp [Hs [Hi [_ Ho]]]]]]].
  - reflexivity.
  - apply path_synchronous with (ctx := VDict []); reflexivity.
  - reflexivity.
  - cbv zeta. fold s. rewrite Hw. simpl fst. simpl snd.
    split; [reflexivity|]. split; [reflexivity|].
    exists b. split; [exact Hp|]. split; [exact Hs|]. split; [exact Hi|].
    exact Ho.
Defined.

(** The COMPLETED report of t1 cannot be sent: the executor reports FAILED
    with the transport error instead. *)
Lemma failed_completed_report_is_caught_witness :
  let r := py_wrapper Sample.cfg Sample.flaky 1 Sample.resize_image
                      Sample.t1 (Sample.in_flight [Sample.t1]) in
  (List.length (posts (log (snd r))) <= 2)%nat.
Proof.
  pose (s := Sample.in_flight [Sample.t1]).
  pose (s1 := logged s [GetWorkflow "w1"; RedisGet "workflow:context:w1"]).
  pose (s2 := snd (py_update Sample.cfg Sample.flaky "w1" "t1" "COMPLETED"
                             (VDict [("width", VInt 100)]) None None None s1)).
  destruct (@failed_completed_report_is_caught
              Runtime.json_dumps_utf8 Runtime.json_loads Runtime.repr
              Sample.cfg Sample.flaky 1 Sample.resize_image Sample.t1
              s s1 s2 (VDict []) (VDict [("width", VInt 100)])
              (ForeignError "Connection refused"))
    as [_ [_ H]].
  - reflexivity.
  - reflexivity.
  - reflexivity.
  - reflexivity.
  - exact H.
Defined.

(** With a threshold below every size and a blob store, the result of t1
    is uploaded and the report carries the key. *)
Lemma report_payload_by_size_witness :
  exists b,
    log (snd (py_update Sample.cfg_externalizing Sample.online
                        "w1" "t1" "COMPLETED" (VDict [("width", VInt 100)])
                        None None None (Sample.in_flight [Sample.t1])))
    = [UploadBytes "task/output/t1.json"
                   (Runtime.json_dumps_utf8 (VDict [("width", VInt 100)]));
       PostTask b]
    /\ r_outputData b = Some (VDict [])
    /\ r_externalOutputPayloadStoragePath b = Some "task/output/t1.json"%string.
Proof.
  pose proof (@report_payload_by_size
                Runtime.json_dumps_utf8 Sample.cfg_externalizing Sample.online
                "w1" "t1" "COMPLETED" (VDict [("width", VInt 100)])
                None None None (Sample.in_flight [Sample.t1]) eq_refl) as H.
  cbv zeta in H.
  destruct H as [b [Hlog [_ [_ [Ho [Hk _]]]]]].
  exists b. split; [exact Hlog|]. split; [exact Ho | exact Hk].
Defined.

(** Two tasks in flight at restart: two FAILED reports, both still in the
    registry. *)
Lemma restart_reports_and_keeps_registry_witness :
  let r := set_all_tasks_to_failed_state
             Runtime.json_dumps_utf8 Sample.cfg Sample.online
             (Sample.in_flight [Sample.t1; Sample.t2]) in
  tasks (snd r) = [("t1"%string, Sample.t1); ("t2"%string, Sample.t2)]
  /\ exists bs,
       posts (log (snd r)) = bs
       /\ Forall2 (restart_report (tasks (Sample.in_flight
                                            [Sample.t1; Sample.t2])))
                  ["t1"%string; "t2"%string] bs.
Proof.
  destruct (@restart_reports_and_keeps_registry
              Runtime.json_dumps_utf8 Sample.cfg Sample.online
              (Sample.in_flight [Sample.t1; Sample.t2])) as [Ht H].
  destruct H as [s' [bs [E [_ [P F]]]]].
  - intros h b. reflexivity.
  - vm_compute. reflexivity.
  - cbv zeta. split; [exact Ht|]. exists bs. rewrite E. simpl snd.
    split; [exact P | exact F].
Defined.

(** A pass over the two sample task types with the default interval. *)
Lemma sleep_follows_each_task_type_witness :
  sleeps (log (snd (poll_pass Runtime.time_sleep Sample.cfg Sample.online
                              Sample.two_types)))
  = [500; 500]
  /\ sleeps (log (snd (start_polling Runtime.time_sleep Sample.cfg
                                     Sample.online 3 Sample.two_types)))
     = [500; 500; 500; 500; 500; 500].
Proof.
  destruct (@sleep_follows_each_task_type
              Runtime.time_sleep Sample.cfg Sample.online Sample.two_types
              eq_refl) as [[s' [evs [E [_ [_ S]]]]] T].
  split.
  - rewrite E. exact S.
  - exact (T 3%nat).
Defined.

(** ** Where the code departs from the specification *)

(** C1, as stated, fails without any report call being assumed to return.
    With the default of no blob store and a threshold of 1 KB, the handler
    of t1 returns a non-empty mapping of 1800 bytes: the only report is
    FAILED, not COMPLETED.  And when the orchestrator is out of reach and
    the handler raises, the FAILED report raises and t1 stays in the
    registry. *)
Lemma terminal_report_depends_on_report_call :
  let r := py_wrapper Sample.cfg_1kb Sample.online 1
                      Sample.big_mapping_handler Sample.t1
                      (Sample.in_flight [Sample.t1]) in
  let r' := py_wrapper Sample.cfg Sample.offline 1 Sample.disk_full
                       Sample.t1 (Sample.in_flight [Sample.t1]) in
  truthy (VDict [("pixels", Sample.big_result)]) = true
  /\ fst r = Return tt
  /\ map r_status (posts (log (snd r))) = ["FAILED"%string]
  /\ ~ (exists b, posts (log (snd r)) = [b]
                  /\ r_status b = "COMPLETED"%string)
  /\ fst r' = Raise (ForeignError "Connection refused")
  /\ Dict.get "t1" (tasks (snd r')) = Some Sample.t1
  /\ ~ (Dict.get "t1" (tasks (snd r')) = None).
Proof.
  cbv zeta.
  assert (H : map r_status
                (posts (log (snd (py_wrapper Sample.cfg_1kb Sample.online 1
                                    Sample.big_mapping_handler Sample.t1
                                    (Sample.in_flight [Sample.t1])))))
              = ["FAILED"%string]) by (vm_compute; reflexivity).
  split; [reflexivity|]. split; [vm_compute; reflexivity|].
  split; [exact H|]. split.
  - intros [b [Hb Hs]]. rewrite Hb in H. simpl in H. rewrite Hs in H.
    discriminate H.
  - split; [vm_compute; reflexivity|].
    split; [vm_compute; reflexivity|].
    vm_compute. discriminate.
Qed.

(** C3, as stated, fails in two ways.  A present but empty [outputData]:
    [{}] is two bytes, far below the threshold, and the report has no
    [outputData] key at all.  And an [outputData] above the threshold with
    the default of no blob store: the reporter raises, and nothing is
    uploaded or posted. *)
Lemma present_output_data_not_always_reported :
  let r := py_update Sample.cfg Sample.online "w1" "t1" "COMPLETED"
                     (VDict []) None None None (Sample.in_flight []) in
  let r' := py_update Sample.cfg_1kb Sample.online "w1" "t1" "COMPLETED"
                      (VDict [("pixels", Sample.big_result)])
                      None None None (Sample.in_flight []) in
  exceeds_threshold Sample.cfg (Runtime.json_dumps_utf8 (VDict [])) = false
  /\ map r_outputData (posts (log (snd r))) = [None]
  /\ ~ (forall b, In b (posts (log (snd r))) ->
                  r_outputData b = Some (VDict []))
  /\ exceeds_threshold
       Sample.cfg_1kb
       (Runtime.json_dumps_utf8 (VDict [("pixels", Sample.big_result)]))
     = true
  /\ fst r' = Raise (AttributeError
                       "'NoneType' object has no attribute 'upload_bytes'")
  /\ log (snd r') = []
  /\ ~ (exists b, In (PostTask b) (log (snd r'))).
Proof.
  cbv zeta. split; [reflexivity|]. split; [reflexivity|]. split.
  - intros H. specialize (H _ (or_introl eq_refl)). discriminate H.
  - split; [vm_compute; reflexivity|].
    split; [vm_compute; reflexivity|].
    split; [vm_compute; reflexivity|].
    intros [b Hb].
    assert (E : log (snd (py_update Sample.cfg_1kb Sample.online "w1" "t1"
                            "COMPLETED"
                            (VDict [("pixels", Sample.big_result)])
                            None None None (Sample.in_flight []))) = [])
      by (vm_compute; reflexivity).
    rewrite E in Hb. destruct Hb.
Qed.


(** C2, as stated, fails: in the world [Sample.flaky] the COMPLETED report
    of t1 raises, yet the executor returns normally after starting a second
    report: the exception has not left it, and there are two sends. *)
Lemma completed_report_failure_starts_second_report :
  let s1 := logged (Sample.in_flight [Sample.t1])
                   [GetWorkflow "w1"; RedisGet "workflow:context:w1"] in
  let r := py_wrapper Sample.cfg Sample.flaky 1 Sample.resize_image
                      Sample.t1 (Sample.in_flight [Sample.t1]) in
  fst (py_update Sample.cfg Sample.flaky "w1" "t1" "COMPLETED"
                 (VDict [("width", VInt 100)]) None None None s1)
  = Raise (ForeignError "Connection refused")
  /\ fst r = Return tt
  /\ map r_status (posts (log (snd r))) = ["COMPLETED"; "FAILED"]%string
  /\ ~ (List.length (posts (log (snd r))) <= 1)%nat.
Proof.
  cbv zeta. split; [reflexivity|]. split; [reflexivity|].
  split; [reflexivity|]. vm_compute. intros H.
  apply le_S_n in H. inversion H.
Qed.

(** C3, as stated, fails for a present but empty [outputData]: [{}] is two
    bytes, far below the threshold, and the report has no [outputData] key
    at all. *)
Lemma empty_output_data_is_left_out :
  let r := py_update Sample.cfg Sample.online "w1" "t1" "COMPLETED"
                     (VDict []) None None None (Sample.in_flight []) in
  exceeds_threshold Sample.cfg (Runtime.json_dumps_utf8 (VDict [])) = false
  /\ fst r = Return tt
  /\ map r_outputData (posts (log (snd r))) = [None]
  /\ ~ (forall b, In b (posts (log (snd r))) ->
                  r_outputData b = Some (VDict [])).
Proof.
  cbv zeta. split; [reflexivity|]. split; [reflexivity|].
  split; [reflexivity|]. intros H.
  specialize (H _ (or_introl eq_refl)). discriminate H.
Qed.

(** C4, as stated, fails with two registered task types: one pass sleeps
    twice, once after each poll. *)
Lemma pass_over_two_types_sleeps_twice :
  let r := poll_pass Runtime.time_sleep Sample.cfg Sample.online
                     Sample.two_types in
  fst r = Return tt
  /\ log (snd r)
     = [PollBatch "resize_image" "worker-1" 1; Sleep 500;
        PollBatch "ocr" "worker-1" 1; Sleep 500]
  /\ ~ (List.length (sleeps (log (snd r))) = 1)%nat.
Proof.
  cbv zeta. split; [reflexivity|]. split; [reflexivity|]. discriminate.
Qed.

(** ** Properties of block registration *)

Section RegistrationFacts.

Import Registration.

Variable cfg : config.
Variable service_registration_token : string.
Variable srv : service.

Lemma set_nonempty {V} (k : string) (v : V) (d : dict V) :
  Dict.set k v d <> [].
Proof. destruct d as [|[k0 v0] d]; simpl; [|destruct (k =? k0)%string]; discriminate. Qed.

Lemma truthy_set (k : string) (v : value) (d : dict value) :
  truthy (VDict (Dict.set k v d)) = true.
Proof.
  pose proof (set_nonempty k v d) as H.
  destruct (Dict.set k v d); [contradiction H; reflexivity | reflexivity].
Qed.

Lemma set_set_same {V} (k : string) (v v' : V) (d : dict V) :
  Dict.set k v (Dict.set k v' d) = Dict.set k v d.
Proof.
  induction d as [|[k0 v0] d IH]; simpl.
  - rewrite String.eqb_refl. reflexivity.
  - destruct (k =? k0)%string eqn:E; simpl.
    + rewrite String.eqb_refl. reflexivity.
    + rewrite E, IH. reflexivity.
Qed.

Lemma get_or_none_set_same (k : string) (v : value) (d : dict value) :
  get_or_none k (Dict.set k v d) = v.
Proof. unfold get_or_none. rewrite get_set_same. reflexivity. Qed.

(** The shape of a tagged block. *)
Lemma add_source_done (block b' : dict value) :
  add_source_for_block cfg block = Done b' ->
  exists block1 extra1 meta,
    b' = Dict.set "extra"
           (VDict (Dict.set "meta"
                     (VDict (Dict.set "source" (VStr (worker_id cfg)) meta))
                     extra1))
           block1
    /\ (block1 = block \/ block1 = Dict.set "extra" (VDict []) block)
    /\ (forall k, k <> "extra"%string -> Dict.get k block1 = Dict.get k block).
Proof.
  unfold add_source_for_block.
  set (block1 := if negb (truthy (get_or_none "extra" block))
                 then Dict.set "extra" (VDict []) block else block).
  assert (H1 : (block1 = block \/ block1 = Dict.set "extra" (VDict []) block)
               /\ forall k, k <> "extra"%string ->
                            Dict.get k block1 = Dict.get k block).
  { subst block1. destruct (negb (truthy (get_or_none "extra" block))).
    - split; [right; reflexivity|]. intros k Hk. apply get_set_other. exact Hk.
    - split; [left; reflexivity | reflexivity]. }
  destruct (get_or_none "extra" block1) as [| | | | |extra]; try discriminate.
  set (extra1 := if negb (truthy (get_or_none "meta" extra))
                 then Dict.set "meta" (VDict []) extra else extra).
  destruct (get_or_none "meta" extra1) as [| | | | |meta]; try discriminate.
  intros H. inversion H. exists block1, extra1, meta.
  split; [reflexivity|]. exact H1.
Qed.

(** X11.  A block that [__add_source_for_block] returns for carries the
    worker id under [extra.meta.source], and every other key of the block
    is as before. *)
Theorem add_source_tags_block (block b' : dict value) :
  add_source_for_block cfg block = Done b' ->
  (exists extra meta,
     Dict.get "extra" b' = Some (VDict extra)
     /\ Dict.get "meta" extra = Some (VDict meta)
     /\ Dict.get "source" meta = Some (VStr (worker_id cfg)))
  /\ forall k, k <> "extra"%string -> Dict.get k b' = Dict.get k block.
Proof.
  intros H. destruct (@add_source_done _ _ H) as [b1 [e1 [m [-> [_ Hk]]]]].
  split.
  - do 2 eexists. rewrite get_set_same. split; [reflexivity|].
    rewrite get_set_same. split; [reflexivity|]. apply get_set_same.
  - intros k Hne. rewrite get_set_other by exact Hne. apply Hk. exact Hne.
Qed.

(** X12.  Tagging is idempotent: tagging a tagged block changes
    nothing. *)
Theorem add_source_idempotent (block b' : dict value) :
  add_source_for_block cfg block = Done b' ->
  add_source_for_block cfg b' = Done b'.
Proof.
  intros H. destruct (@add_source_done _ _ H) as [b1 [e1 [m [-> _]]]].
  unfold add_source_for_block.
  rewrite !get_or_none_set_same, truthy_set. simpl negb. cbv iota.
  rewrite !get_or_none_set_same, truthy_set. simpl negb. cbv iota.
  rewrite !get_or_none_set_same.
  rewrite !set_set_same. reflexivity.
Qed.

(** X13.  Tagging keeps what a block already has under [extra] and
    [extra.meta] when these are non-empty dicts: only [extra.meta.source]
    is written. *)
Theorem add_source_keeps_existing_entries
        (block extra meta : dict value) :
  Dict.get "extra" block = Some (VDict extra) ->
  Dict.get "meta" extra = Some (VDict meta) ->
  meta <> [] ->
  exists b' extra' meta',
    add_source_for_block cfg block = Done b'
    /\ Dict.get "extra" b' = Some (VDict extra')
    /\ Dict.get "meta" extra' = Some (VDict meta')
    /\ (forall k, k <> "meta"%string -> Dict.get k extra' = Dict.get k extra)
    /\ (forall k, k <> "source"%string -> Dict.get k meta' = Dict.get k meta)
    /\ Dict.keys b' = Dict.keys block.
Proof.
  intros He Hm Hne.
  assert (Hex : extra <> []) by (destruct extra; [discriminate | discriminate]).
  unfold add_source_for_block, get_or_none. rewrite He.
  destruct extra as [|p extra0]; [contradiction Hex; reflexivity|].
  simpl negb. cbv iota. rewrite He. rewrite Hm.
  destruct meta as [|q meta0]; [contradiction Hne; reflexivity|].
  simpl negb. cbv iota. rewrite Hm.
  do 3 eexists. split; [reflexivity|].
  split; [apply get_set_same|]. split; [apply get_set_same|].
  split; [intros k Hk; apply get_set_other; exact Hk|].
  split; [intros k Hk; apply get_set_other; exact Hk|].
  apply keys_set_present. unfold Dict.mem. rewrite He. reflexivity.
Qed.

(** X14.  Tagging fails in two cases only, and before it has assigned
    anything: [AttributeError] when [extra] is truthy and not a dict,
    [TypeError] when [extra.meta] is truthy and not a dict.  A block without
    [extra] key, or with a falsy one, is always tagged. *)
Theorem add_source_failures (block : dict value) (e : raised) :
  add_source_for_block cfg block = Raised e ->
  (e = NoSuchAttribute
   /\ truthy (get_or_none "extra" block) = true
   /\ forall d, get_or_none "extra" block <> VDict d)
  \/ (e = WrongType
      /\ exists extra,
           get_or_none "extra" block = VDict extra
           /\ truthy (get_or_none "meta" extra) = true
           /\ forall d, get_or_none "meta" extra <> VDict d).
Proof.
  unfold add_source_for_block.
  destruct (truthy (get_or_none "extra" block)) eqn:Te; simpl negb; cbv iota.
  - destruct (get_or_none "extra" block) as [| | | | |extra] eqn:Ee;
      try (intros H; inversion H; left; repeat split; auto; discriminate).
    destruct (truthy (get_or_none "meta" extra)) eqn:Tm; simpl negb; cbv iota.
    + destruct (get_or_none "meta" extra) as [| | | | |meta] eqn:Em;
        try (intros H; inversion H; right; split; [reflexivity|];
             exists extra; rewrite Em; repeat split; auto; discriminate).
      discriminate.
    + rewrite get_or_none_set_same. discriminate.
  - rewrite get_or_none_set_same. simpl. discriminate.
Qed.

Lemma names_of_items_raises (items : list value) (e : raised) :
  names_of_items items = Raised e -> e = NoSuchAttribute.
Proof.
  induction items as [|item items IH]; simpl; [discriminate|].
  destruct item; simpl; try (intros H; inversion H; reflexivity).
  destruct (names_of_items items) as [ns|e']; [discriminate|].
  intros H. inversion H; subst. apply IH. reflexivity.
Qed.

Lemma names_raises (v : value) (e : raised) :
  names v = Raised e -> e = NoSuchAttribute \/ e = WrongType.
Proof.
  destruct v as [| | |s|items|d]; simpl;
    try (intros H; inversion H; auto; fail).
  - destruct s; intros H; inversion H; auto.
  - intros H. left. apply (names_of_items_raises items). exact H.
  - destruct d; intros H; inversion H; auto.
Qed.

(** X15.  The key lists of a task definition come from a list of dicts,
    item by item and in order, a missing [name] giving [None]; a list with
    an item that is not a dict raises instead. *)
Theorem names_of_list (items ns : list value) :
  names (VList items) = Done ns
  <-> Forall2 (fun item n =>
                 exists d, item = VDict d
                           /\ n = match Dict.get "name" d with
                                  | Some v => v
                                  | None => VNone
                                  end)
              items ns.
Proof.
  simpl. revert ns. induction items as [|item items IH]; intros ns; simpl.
  - split.
    + intros H. inversion H. constructor.
    + intros H. inversion H. reflexivity.
  - split.
    + destruct item as [| | | | |d]; simpl; try discriminate.
      destruct (names_of_items items) as [ns'|e] eqn:E; [|discriminate].
      intros H. inversion H; subst. constructor.
      * exists d. split; reflexivity.
      * apply IH. reflexivity.
    + intros H. inversion H as [|? n ? ns' [d [-> ->]] Hrest]; subst. simpl.
      apply IH in Hrest. rewrite Hrest. reflexivity.
Qed.

(** X16.  The order of the requests of [register_block] and its effect on
    the caller's block, whatever the block and the services: nothing is
    requested when a key list cannot be built; the task definition is
    posted first; the block is sent to the registration service only once
    it is tagged, inside [{"blocks": [block]}] and with the registration
    token; and the caller's block is changed only in that case. *)
Theorem register_block_call_discipline
        (block : dict value) (retry_count timeout_seconds : Z)
        (owner_email : string) :
  let r := register_block cfg service_registration_token srv block
                          retry_count timeout_seconds owner_email in
  match snd r with
  | [] =>
      snd (fst r) = block
      /\ (fst (fst r) = Raised NoSuchAttribute
          \/ fst (fst r) = Raised WrongType)
  | [PostTaskDefs _] =>
      snd (fst r) = block /\ exists e, fst (fst r) = Raised e
  | [PostTaskDefs _; PostBlocks body key] =>
      add_source_for_block cfg block = Done (snd (fst r))
      /\ body = VDict [("blocks", VList [VDict (snd (fst r))])]
      /\ key = service_registration_token
  | _ => False
  end.
Proof.
  unfold register_block.
  destruct (names (get_or_none "input" block)) as [ik|e] eqn:Ei.
  - destruct (names (get_or_none "output" block)) as [ok|e] eqn:Eo.
    + destruct (post_taskdefs srv _) as [[]|e].
      * destruct (add_source_for_block cfg block) as [b'|e] eqn:Ea.
        -- destruct (post_blocks srv _ _); simpl; auto.
        -- simpl. split; [reflexivity | eexists; reflexivity].
      * simpl. split; [reflexivity | eexists; reflexivity].
    + simpl. split; [reflexivity|].
      destruct (names_raises _ Eo) as [-> | ->]; auto.
  - simpl. split; [reflexivity|].
    destruct (names_raises _ Ei) as [-> | ->]; auto.
Qed.

Lemma check_response_done (json : value) :
  check_response json = Done tt ->
  exists d dd success,
    json = VDict d
    /\ Dict.get "code" d = Some (VInt 200)
    /\ Dict.get "data" d = Some (VDict dd)
    /\ Dict.get "success" dd = Some success
    /\ truthy success = true.
Proof.
  unfold check_response.
  destruct json as [| | | | |d]; simpl; try discriminate.
  unfold get_or_none.
  destruct (Dict.get "code" d) as [code|] eqn:Ec; simpl; [|discriminate].
  destruct code as [| |z| | |]; simpl; try discriminate.
  destruct (z =? 200) eqn:Ez; simpl; [|discriminate].
  apply Z.eqb_eq in Ez. subst z.
  destruct (Dict.get "data" d) as [data|] eqn:Ed; simpl; [|discriminate].
  destruct data as [| | | | |dd]; simpl; try discriminate.
  unfold get_or_none.
  destruct (Dict.get "success" dd) as [success|] eqn:Es; simpl;
    [|discriminate].
  destruct (truthy success) eqn:Ts; simpl; [|discriminate].
  intros _. exists d, dd, success. auto.
Qed.

(** X17.  [register_block] returns only after both requests were made and
    the registration service answered with a dict whose [code] is the
    number 200 and whose [data] is a dict with a truthy [success]: a missing
    [data], a null [data], a missing or falsy [success] all raise. *)
Theorem register_block_returns_only_when_confirmed
        (block : dict value) (retry_count timeout_seconds : Z)
        (owner_email : string) :
  let r := register_block cfg service_registration_token srv block
                          retry_count timeout_seconds owner_email in
  fst (fst r) = Done tt ->
  exists defs body d dd success,
    snd r = [PostTaskDefs defs; PostBlocks body service_registration_token]
    /\ post_taskdefs srv defs = Ok tt
    /\ body = VDict [("blocks", VList [VDict (snd (fst r))])]
    /\ post_blocks srv body service_registration_token = Ok (VDict d)
    /\ Dict.get "code" d = Some (VInt 200)
    /\ Dict.get "data" d = Some (VDict dd)
    /\ Dict.get "success" dd = Some success
    /\ truthy success = true.
Proof.
  unfold register_block.
  destruct (names (get_or_none "input" block)) as [ik|e]; [|discriminate].
  destruct (names (get_or_none "output" block)) as [ok|e]; [|discriminate].
  destruct (post_taskdefs srv _) as [[]|e] eqn:Et; [|discriminate].
  destruct (add_source_for_block cfg block) as [b'|e]; [|discriminate].
  destruct (post_blocks srv _ _) as [json|e] eqn:Ep; [|discriminate].
  simpl. intros H.
  destruct (check_response_done _ H) as [d [dd [success [-> [Hc [Hd [Hs Ht]]]]]]].
  do 5 eexists. split; [reflexivity|]. split; [exact Et|].
  split; [reflexivity|]. split; [exact Ep|].
  split; [exact Hc|]. split; [exact Hd|]. split; [exact Hs | exact Ht].
Qed.

(** X18.  When the registration service answers with a [code] other than
    200, [register_block] raises [ServiceRegistrationException] with the
    [message] of the answer ([None] when there is none), after both
    requests; the caller's block has been tagged all the same. *)
Theorem rejected_registration_raises_with_message
        (block b' : dict value) (input_keys output_keys : list value)
        (retry_count timeout_seconds : Z) (owner_email : string)
        (d : dict value) :
  names (get_or_none "input" block) = Done input_keys ->
  names (get_or_none "output" block) = Done output_keys ->
  (forall defs, post_taskdefs srv defs = Ok tt) ->
  add_source_for_block cfg block = Done b' ->
  (forall body key, post_blocks srv body key = Ok (VDict d)) ->
  Dict.get "code" d <> Some (VInt 200) ->
  register_block cfg service_registration_token srv block
                 retry_count timeout_seconds owner_email
  = (Raised (ServiceRegistrationException
               (match Dict.get "message" d with
                | Some m => m
                | None => VNone
                end)),
     b',
     [PostTaskDefs
        (VList [VDict [("name", get_or_none "name" block);
                       ("inputKeys", VList input_keys);
                       ("outputKeys", VList output_keys);
                       ("retryCount", VInt retry_count);
                       ("timeoutSeconds", VInt timeout_seconds);
                       ("ownerEmail", VStr owner_email)]]);
      PostBlocks (VDict [("blocks", VList [VDict b'])])
                 service_registration_token]).
Proof.
  intros Hi Ho Ht Ha Hp Hc. unfold register_block.
  rewrite Hi, Ho, Ht, Ha, Hp. unfold check_response, py_get, get_or_none.
  assert (H200 : is_200 match Dict.get "code" d with
                        | Some v => v
                        | None => VNone
                        end = false).
  { destruct (Dict.get "code" d) as [[| |z| | |]|]; simpl; auto.
    destruct (z =? 200) eqn:Ez; auto. apply Z.eqb_eq in Ez. subst.
    contradiction Hc. reflexivity. }
  rewrite H200. reflexivity.
Qed.


End RegistrationFacts.

(** ** The further properties at work on the samples *)

Local Abbreviation py_set_all :=
  (set_all_tasks_to_failed_state Runtime.json_dumps_utf8).

(** A COMPLETED report of t1 with an empty reason and a delay of 0. *)
Lemma report_never_touches_registry_witness :
  let r := py_update Sample.cfg Sample.online "w1" "t1" "COMPLETED"
                     (VDict [("width", VInt 100)]) (Some EmptyString)
                     (Some 0) None (Sample.in_flight [Sample.t1]) in
  tasks (snd r) = [("t1"%string, Sample.t1)]
  /\ List.length (posts (log (snd r))) = 1%nat.
Proof.
  destruct (@report_never_touches_registry
              Runtime.json_dumps_utf8 Sample.cfg Sample.online
              "w1" "t1" "COMPLETED" (VDict [("width", VInt 100)])
              (Some EmptyString) (Some 0) None
              (Sample.in_flight [Sample.t1])) as [T [_ [_ [_ R]]]].
  cbv zeta. split; [exact T | exact (R eq_refl)].
Defined.

Lemma falsy_optional_fields_are_dropped_witness :
  exists b,
    posts (log (snd (py_update Sample.cfg Sample.online "w1" "t1" "COMPLETED"
                               (VDict [("width", VInt 100)])
                               (Some EmptyString) (Some 0) (Some EmptyString)
                               (Sample.in_flight [Sample.t1]))))
    = [b]
    /\ r_reasonForIncompletion b = None
    /\ r_callbackAfterSeconds b = None
    /\ r_workerId b = "worker-1"%string.
Proof.
  pose (b := report_body Sample.cfg "w1" "t1" "COMPLETED"
                         (Some (VDict [("width", VInt 100)])) None
                         (Some EmptyString) (Some 0) (Some EmptyString)).
  exists b. split; [reflexivity|].
  destruct (@falsy_optional_fields_are_dropped
              Runtime.json_dumps_utf8 Sample.cfg Sample.online
              "w1" "t1" "COMPLETED" (VDict [("width", VInt 100)])
              (Some EmptyString) (Some 0) (Some EmptyString)
              (Sample.in_flight [Sample.t1]) b (or_introl eq_refl))
    as [[]|[R [C [W _]]]].
  split; [exact R|]. split; [exact C | exact W].
Defined.

(** Task t1 finishes while it is not in the registry. *)
Lemma absent_task_is_reported_twice_witness :
  let r := py_wrapper Sample.cfg Sample.online 1 Sample.resize_image
                      Sample.t1 (Sample.in_flight []) in
  fst r = Raise (KeyError "t1")
  /\ map r_status (posts (log (snd r))) = ["COMPLETED"; "FAILED"]%string.
Proof.
  pose (s := Sample.in_flight []).
  pose (s1 := logged s [GetWorkflow "w1"; RedisGet "workflow:context:w1"]).
  pose (s2 := snd (py_update Sample.cfg Sample.online "w1" "t1" "COMPLETED"
                             (VDict [("width", VInt 100)]) None None None s1)).
  pose (s3 := snd (py_update Sample.cfg Sample.online "w1" "t1" "FAILED"
                             (VDict [("success", VBool false);
                                     ("errMsg", VStr "'t1'")])
                             None None None s2)).
  destruct (@absent_task_is_reported_twice
              Runtime.json_dumps_utf8 Runtime.json_loads Runtime.repr
              Sample.cfg Sample.online 1 Sample.resize_image Sample.t1
              s s1 s2 s3 (VDict []) (VDict [("width", VInt 100)]))
    as [Hw [_ Hp]]; try reflexivity.
  cbv zeta. fold s. rewrite Hw. split; [reflexivity | exact Hp].
Defined.

(** Task t4 belongs to workflow a, whose parent chain is a cycle. *)
Lemma parent_cycle_never_resolves_witness :
  let r := py_wrapper Sample.cfg Sample.cyclic 7 Sample.resize_image
                      Sample.t4 (Sample.in_flight [Sample.t4]) in
  fst r = Diverge /\ posts (log (snd r)) = []
  /\ List.length (log (snd r)) = 7%nat.
Proof.
  destruct (@parent_cycle_never_resolves
              Runtime.json_dumps_utf8 Runtime.json_loads Runtime.repr
              Sample.cfg Sample.cyclic
              (fun x => x = "a"%string \/ x = "b"%string)
              7 Sample.resize_image Sample.t4 (Sample.in_flight [Sample.t4]))
    as [D [_ [P [_ L]]]].
  - intros x [-> | ->].
    + exists "b"%string. split; [right; reflexivity|].
      split; [discriminate | intros h; reflexivity].
    + exists "a"%string. split; [left; reflexivity|].
      split; [discriminate | intros h; reflexivity].
  - left. reflexivity.
  - cbv zeta. split; [exact D|]. split; [exact P | exact L].
Defined.

(** Two tasks are waiting for resize_image. *)
Lemma polled_tasks_enter_registry_witness :
  let r := poll_one Runtime.time_sleep Sample.cfg Sample.busy
                    "resize_image" Sample.two_types in
  tasks (snd r) = [("t1"%string, Sample.t1); ("t2"%string, Sample.t2)]
  /\ log (snd r)
     = [PollBatch "resize_image" "worker-1" 1;
        ThreadStart "resize_image" Sample.t1;
        ThreadStart "resize_image" Sample.t2; Sleep 500].
Proof.
  pose proof (@polled_tasks_enter_registry
                Runtime.time_sleep Sample.cfg Sample.busy "resize_image"
                Sample.resize_image [Sample.t1; Sample.t2] Sample.two_types
                eq_refl eq_refl eq_refl) as E.
  cbv zeta. rewrite E. split; reflexivity.
Defined.

(** A pass over the two sample task types. *)
Lemma pass_polls_every_task_type_witness :
  polls (log (snd (poll_pass Runtime.time_sleep Sample.cfg Sample.busy
                             Sample.two_types)))
  = ["resize_image"; "ocr"]%string.
Proof.
  destruct (@pass_polls_every_task_type
              Runtime.time_sleep Sample.cfg Sample.busy Sample.two_types
              eq_refl) as [_ [_ P]].
  exact P.
Defined.

(** With an interval of -500 ms the loop ends in its first turn. *)
Lemma rejected_sleep_ends_polling_witness :
  let r := start_polling Runtime.time_sleep Sample.cfg_negative Sample.busy
                         3 Sample.two_types in
  fst r = Raise (ForeignError "sleep length must be non-negative")
  /\ polls (log (snd r)) = ["resize_image"%string]
  /\ sleeps (log (snd r)) = [].
Proof.
  exact (@rejected_sleep_ends_polling
           Runtime.time_sleep Sample.cfg_negative Sample.busy
           "resize_image" Sample.resize_image
           [("ocr"%string, Sample.empty_result)]
           (ForeignError "sleep length must be non-negative")
           2 Sample.two_types eq_refl eq_refl).
Defined.

(** The orchestrator is out of reach at restart, with two tasks in
    flight: one POST is attempted. *)
Lemma restart_stops_at_first_failure_witness :
  let r := py_set_all Sample.cfg Sample.offline
                      (Sample.in_flight [Sample.t1; Sample.t2]) in
  fst r = Raise (ForeignError "Connection refused")
  /\ (List.length (posts (log (snd r))) <= 1)%nat.
Proof.
  pose (s := Sample.in_flight [Sample.t1; Sample.t2]).
  pose (s1 := snd (py_update Sample.cfg Sample.offline "w1" "t1" "FAILED"
                             restart_output None None None s)).
  destruct (@restart_stops_at_first_failure
              Runtime.json_dumps_utf8 Sample.cfg Sample.offline
              "t1" Sample.t1 [("t2"%string, Sample.t2)]
              (ForeignError "Connection refused") s s1 eq_refl eq_refl)
    as [E [_ L]].
  cbv zeta. fold s. rewrite E. split; [reflexivity | exact L].
Defined.

Lemma distinct_names_do_not_collide_witness :
  let s' := snd (register_handler Sample.cfg_externalizing "ocr"
                                  Sample.empty_result Sample.two_types) in
  Dict.keys (task_types s') = ["resize_image"; "ocr"; "vines_ocr"]%string
  /\ Dict.get "vines_resize_image" (task_types s') = None.
Proof.
  destruct (@distinct_names_do_not_collide
              Sample.cfg_externalizing "resize_image" "ocr"
              Sample.empty_result Sample.two_types) as [_ [G _]].
  - discriminate.
  - cbv zeta. split; [reflexivity|].
    change "vines_resize_image"%string
      with (handler_name Sample.cfg_externalizing "resize_image").
    rewrite G. reflexivity.
Defined.

(** A result of 1800 bytes, a threshold of 1 KB and no blob store. *)
Lemma oversized_result_without_storage_fails_task_witness :
  let r := py_wrapper Sample.cfg_1kb Sample.online 1 Sample.big_handler
                      Sample.t1 (Sample.in_flight [Sample.t1]) in
  fst r = Return tt /\ tasks (snd r) = []
  /\ map r_status (posts (log (snd r))) = ["FAILED"%string].
Proof.
  pose (s := Sample.in_flight [Sample.t1]).
  pose (s1 := logged s [GetWorkflow "w1"; RedisGet "workflow:context:w1"]).
  pose (s2 := snd (py_update Sample.cfg_1kb Sample.online "w1" "t1" "FAILED"
                     (failure_output Runtime.repr
                        (AttributeError
                           "'NoneType' object has no attribute 'upload_bytes'"))
                     None None None s1)).
  destruct (@oversized_result_without_storage_fails_task
              Runtime.json_dumps_utf8 Runtime.json_loads Runtime.repr
              Sample.cfg_1kb Sample.online 1 Sample.big_handler Sample.t1
              s s1 s2 (VDict []) Sample.big_result)
    as [Hw [b [Hp [Hs _]]]];
    [reflexivity | reflexivity | reflexivity | reflexivity
     | vm_compute; reflexivity | vm_compute; reflexivity
     | reflexivity | reflexivity | ].
  cbv zeta. fold s. rewrite Hw.
  split; [reflexivity|]. split; [reflexivity|].
  cbn [snd log]. rewrite Hp. simpl. rewrite Hs. reflexivity.
Defined.

(** Task t1 is dispatched to resize_image and completes. *)
Lemma dispatch_then_complete_restores_registry_witness :
  let sd := snd (dispatch "resize_image" Sample.t1 Sample.two_types) in
  Dict.keys (tasks sd) = ["t1"%string]
  /\ tasks (snd (py_wrapper Sample.cfg Sample.online 1 Sample.resize_image
                            Sample.t1 sd)) = [].
Proof.
  pose (s := Sample.two_types).
  pose (sd := {| task_types := task_types s;
                 tasks := Dict.set (taskId Sample.t1) Sample.t1 (tasks s);
                 log := log s ++ [ThreadStart "resize_image" Sample.t1] |}).
  pose (s1 := logged sd [GetWorkflow "w1"; RedisGet "workflow:context:w1"]).
  pose (s2 := snd (py_update Sample.cfg Sample.online "w1" "t1" "COMPLETED"
                             (VDict [("width", VInt 100)]) None None None s1)).
  destruct (@dispatch_then_complete_restores_registry
              Runtime.json_dumps_utf8 Runtime.json_loads Runtime.repr
              Sample.cfg Sample.online 1 "resize_image" Sample.resize_image
              Sample.t1 s s1 s2 (VDict []) (VDict [("width", VInt 100)]))
    as [Hd [_ Hw]]; try reflexivity.
  cbv zeta. fold s. rewrite Hd. cbn [snd]. split; [reflexivity|].
  rewrite Hw. reflexivity.
Defined.

Local Abbreviation sample_tag :=
  (Registration.add_source_for_block Sample.cfg).
Local Abbreviation sample_register :=
  (Registration.register_block Sample.cfg "secret").

(** The sample block once tagged by worker-1. *)
Lemma sample_block_tagged :
  sample_tag RegistrationSample.block
  = Registration.Done
      [("name", VStr "resize_image");
       ("input", VList [VDict [("name", VStr "url"); ("type", VStr "string")];
                        VDict [("type", VStr "number")]]);
       ("output", VList [VDict [("name", VStr "width")]]);
       ("extra", VDict [("meta", VDict [("icon", VStr "image");
                                        ("source", VStr "worker-1")]);
                        ("estimateTime", VInt 3)])].
Proof. reflexivity. Qed.

Lemma add_source_tags_block_witness :
  exists b' extra meta,
    sample_tag RegistrationSample.block = Registration.Done b'
    /\ Dict.get "extra" b' = Some (VDict extra)
    /\ Dict.get "meta" extra = Some (VDict meta)
    /\ Dict.get "source" meta = Some (VStr "worker-1")
    /\ Dict.get "name" b' = Some (VStr "resize_image").
Proof.
  destruct (@add_source_tags_block Sample.cfg RegistrationSample.block _
              sample_block_tagged) as [[extra [meta [He [Hm Hs]]]] Hk].
  eexists. exists extra, meta. split; [exact sample_block_tagged|].
  split; [exact He|]. split; [exact Hm|]. split; [exact Hs|].
  rewrite Hk by discriminate. reflexivity.
Defined.

Lemma add_source_idempotent_witness :
  exists b',
    sample_tag RegistrationSample.block = Registration.Done b'
    /\ sample_tag b' = Registration.Done b'.
Proof.
  eexists. split; [exact sample_block_tagged|].
  exact (@add_source_idempotent Sample.cfg RegistrationSample.block _
                                sample_block_tagged).
Defined.

Lemma add_source_keeps_existing_entries_witness :
  exists b' extra' meta',
    sample_tag RegistrationSample.block = Registration.Done b'
    /\ Dict.get "extra" b' = Some (VDict extra')
    /\ Dict.get "meta" extra' = Some (VDict meta')
    /\ Dict.get "estimateTime" extra' = Some (VInt 3)
    /\ Dict.get "icon" meta' = Some (VStr "image").
Proof.
  destruct (@add_source_keeps_existing_entries
              Sample.cfg RegistrationSample.block
              [("meta", VDict [("icon", VStr "image")]);
               ("estimateTime", VInt 3)]
              [("icon", VStr "image")] eq_refl eq_refl)
    as [b' [extra' [meta' [E [He [Hm [Ke [Km _]]]]]]]].
  - discriminate.
  - exists b', extra', meta'. split; [exact E|]. split; [exact He|].
    split; [exact Hm|]. split.
    + rewrite Ke by discriminate. reflexivity.
    + rewrite Km by discriminate. reflexivity.
Defined.

(** A block whose [extra] is the string "beta" cannot be tagged. *)
Lemma add_source_failures_witness :
  sample_tag RegistrationSample.bad_block
  = Registration.Raised Registration.NoSuchAttribute.
Proof.
  destruct (sample_tag RegistrationSample.bad_block) as [b'|e] eqn:E.
  - discriminate E.
  - destruct (@add_source_failures Sample.cfg RegistrationSample.bad_block
                e E) as [[-> _]|[_ [extra [Hx _]]]].
    + reflexivity.
    + discriminate Hx.
Defined.

Lemma names_of_list_witness :
  Registration.names
    (VList [VDict [("name", VStr "url"); ("type", VStr "string")];
            VDict [("type", VStr "number")]])
  = Registration.Done [VStr "url"; VNone].
Proof.
  apply names_of_list.
  constructor; [eexists; split; reflexivity|].
  constructor; [eexists; split; reflexivity|].
  constructor.
Defined.

(** The sample block is registered with an accepting service. *)
Lemma register_block_returns_only_when_confirmed_witness :
  exists defs body,
    snd (sample_register RegistrationSample.accepting
                         RegistrationSample.block 3 86400
                         "dev@infmonkeys.com")
    = [Registration.PostTaskDefs defs;
       Registration.PostBlocks body "secret"].
Proof.
  destruct (@register_block_returns_only_when_confirmed
              Sample.cfg "secret" RegistrationSample.accepting
              RegistrationSample.block 3 86400 "dev@infmonkeys.com" eq_refl)
    as [defs [body [_ [_ [_ [E _]]]]]].
  exists defs, body. exact E.
Defined.

(** The same block and a service that answers 403. *)
Lemma rejected_registration_raises_with_message_witness :
  exists b' calls,
    sample_register RegistrationSample.rejecting RegistrationSample.block
                    3 86400 "dev@infmonkeys.com"
    = (Registration.Raised
         (Registration.ServiceRegistrationException (VStr "invalid key")),
       b', calls)
    /\ List.length calls = 2%nat
    /\ sample_tag RegistrationSample.block = Registration.Done b'.
Proof.
  pose proof (@rejected_registration_raises_with_message
                Sample.cfg "secret" RegistrationSample.rejecting
                RegistrationSample.block _ [VStr "url"; VNone] [VStr "width"]
                3 86400 "dev@infmonkeys.com"
                [("code", VInt 403); ("message", VStr "invalid key")]
                eq_refl eq_refl (fun _ => eq_refl) sample_block_tagged
                (fun _ _ => eq_refl)) as H.
  do 2 eexists. split; [apply H; discriminate|].
  split; [reflexivity | exact sample_block_tagged].
Defined.

